(** * dinner-ai-app2: the model selector, the prompt template and the
      generation call of [app.py]

    [app.py] is a Streamlit script.  It lists the models of the remote
    service, keeps those that support [generateContent], picks one by a
    fixed priority list (falling back on the first supported one), formats
    a prompt from three ingredients and a cuisine and sends it to the
    chosen model.

    The script is embedded as functions in a small monad [UI]: a
    computation returns a value or raises, and emits the Streamlit calls
    it makes, in order.  Strings are [String.string], that is byte
    strings; the Japanese literals of the script are their UTF-8 bytes. *)

From Stdlib Require Import String Ascii List Bool Arith Lia.
Import ListNotations.
Open Scope string_scope.
Open Scope list_scope.

(** ** Python values *)

Module Py.

(** Truthiness of a [str]: [bool(s)] is [False] exactly for the empty
    string. *)
Definition truthy (s : string) : bool :=
  match s with
  | EmptyString => false
  | String _ _ => true
  end.

(** Truthiness of a value that is [None] or a [str]. *)
Definition truthy_opt (x : option string) : bool :=
  match x with
  | None => false
  | Some s => truthy s
  end.

(** [x in xs] for a list of [str]. *)
Definition in_list (x : string) (xs : list string) : bool :=
  existsb (String.eqb x) xs.

(** [s.split(sep)] for a one-character separator: never empty. *)
Fixpoint split (sep : ascii) (s : string) : list string :=
  match s with
  | EmptyString => [EmptyString]
  | String c s' =>
      if Ascii.eqb c sep then EmptyString :: split sep s'
      else match split sep s' with
           | [] => [String c EmptyString]
           | w :: ws => String c w :: ws
           end
  end.

(** [xs[-1]] on a list that [split] returned. *)
Definition last_item (xs : list string) : string := last xs EmptyString.

(** [sub in s] for two [str]: [sub] starts at some position of [s]. *)
Fixpoint contains (sub s : string) : bool :=
  match s with
  | EmptyString => prefix sub EmptyString
  | String _ s' => prefix sub s || contains sub s'
  end.

(** [s.lower()] on the ASCII letters; the other bytes are kept.  The two
    words searched for below are ASCII, and no non-ASCII character
    lower-cases to a run of ASCII letters that could complete them. *)
Definition lower_ascii (c : ascii) : ascii :=
  let n := nat_of_ascii c in
  if ((65 <=? n) && (n <=? 90))%nat then ascii_of_nat (n + 32) else c.

Fixpoint lower (s : string) : string :=
  match s with
  | EmptyString => EmptyString
  | String c s' => String (lower_ascii c) (lower s')
  end.

(** [any(xs)] for a list of values that are [None] or a [str]. *)
Definition any (xs : list (option string)) : bool := existsb truthy_opt xs.

End Py.

(** ** Streamlit calls and the [UI] monad *)

(** Where an element is drawn: [st.sidebar.f(...)] or [st.f(...)]. *)
Inductive Place := Sidebar | Page.

(** The Streamlit function called. *)
Inductive Call :=
| write | text | subheader | error | warning | success | markdown | title
| text_input | selectbox | button | spinner | expander | set_page_config
| columns.

(** What is shown.  The two lines that print a model's name with the list
    of its methods, [f"{prefix}{model_name}: {methods}"], keep the three
    parts apart instead of rendering the list. *)
Inductive Shown :=
| Str (s : string)
| NameMethods (prefix model_name : string) (methods : list string).

Inductive Event :=
| St (p : Place) (c : Call) (x : Shown)
| GenerateContent (model_name prompt : string).

(** What a Python computation can raise: an [Exception] with its message
    [str(e)], or Streamlit's [StopException] raised by [st.stop()], which
    [except Exception] does not catch. *)
Inductive Raised :=
| Exception (msg : string)
| StopException.

Definition UI (A : Type) : Type := (Raised + A) * list Event.

Definition ret {A} (a : A) : UI A := (inr a, []).

Definition bind {A B} (m : UI A) (k : A -> UI B) : UI B :=
  match m with
  | (inr a, es) => let (r, es') := k a in (r, es ++ es')
  | (inl e, es) => (inl e, es)
  end.

Definition raise {A} (e : Raised) : UI A := (inl e, []).

Definition emit (e : Event) : UI unit := (inr tt, [e]).

(** [try: body  except Exception as e: handler(str(e))]. *)
Definition try_except {A} (body : UI A) (handler : string -> UI A) : UI A :=
  match body with
  | (inl (Exception msg), es) => let (r, es') := handler msg in (r, es ++ es')
  | other => other
  end.

Notation "x <- m ;; k" := (bind m (fun x => k))
  (at level 61, m at next level, right associativity).
Notation "m ;; k" := (bind m (fun _ => k))
  (at level 61, right associativity).

(** [for x in xs: body(x)]. *)
Fixpoint for_each {A} (xs : list A) (body : A -> UI unit) : UI unit :=
  match xs with
  | [] => ret tt
  | x :: rest => body x ;; for_each rest body
  end.

Definition result {A} (m : UI A) : Raised + A := fst m.
Definition events {A} (m : UI A) : list Event := snd m.

(** ** The remote catalog *)

(** A model object as [genai.list_models()] yields it: its [name]
    ("models/<id>") and, when the attribute exists, its
    [supported_generation_methods]. *)
Record Model := {
  name : string;
  supported_generation_methods : option (list string)
}.

(** The object [GenerativeModel(selected_model)]. *)
Record GenerativeModel := { model_name : string }.

(** [model.name.split('/')[-1]]. *)
Definition short_name (model : Model) : string :=
  Py.last_item (Py.split "/"%char (name model)).

(** [hasattr(model, 'supported_generation_methods')]. *)
Definition hasattr_methods (model : Model) : bool :=
  match supported_generation_methods model with
  | Some _ => true
  | None => false
  end.

(** [getattr(model, 'supported_generation_methods', [])]. *)
Definition getattr_methods (model : Model) : list string :=
  match supported_generation_methods model with
  | Some ms => ms
  | None => []
  end.

(** [model.supported_generation_methods]: raises [AttributeError] when the
    attribute is missing. *)
Definition attr_methods (model : Model) : UI (list string) :=
  match supported_generation_methods model with
  | Some ms => ret ms
  | None =>
      raise (Exception
        "'Model' object has no attribute 'supported_generation_methods'")
  end.

(** ** [initialize_gemini] *)

(** Line 72. *)
Definition priority_models : list string :=
  ["gemini-3-flash-preview"; "gemini-2.5-flash"; "gemini-2.0-flash";
   "gemini-pro-latest"].

(** Line 54: [hasattr(model, ...) and 'generateContent' in
    model.supported_generation_methods]; [and] reads the attribute only
    when [hasattr] is true. *)
Definition supports_generateContent (model : Model) : UI bool :=
  if hasattr_methods model then
    ms <- attr_methods model ;;
    ret (Py.in_list "generateContent" ms)
  else ret false.

(** Lines 52-57: the loop that fills [supported_models]. *)
Fixpoint collect_supported (models : list Model) (supported_models : list string)
  : UI (list string) :=
  match models with
  | [] => ret supported_models
  | model :: rest =>
      ok <- supports_generateContent model ;;
      if ok then
        let model_name := short_name model in
        emit (St Sidebar write (Str ("✅ サポート: " ++ model_name))) ;;
        collect_supported rest (supported_models ++ [model_name])
      else collect_supported rest supported_models
  end.

(** Lines 73-78: the loop over the priorities, left at the first hit;
    [None] when [selected_model] is still [None] after it. *)
Fixpoint scan_priorities (priorities supported_models : list string)
  : option string :=
  match priorities with
  | [] => None
  | priority :: rest =>
      if Py.in_list priority supported_models then Some priority
      else scan_priorities rest supported_models
  end.

(** Line 36: the key shown with its middle cut out. *)
Definition key_preview (api_key : string) : string :=
  "🔑 APIキー確認: " ++ substring 0 10 api_key ++ "..." ++
  (if (20 <? String.length api_key)%nat
   then substring (String.length api_key - 10) 10 api_key
   else "***").

Definition no_supported_model_msg : string :=
  "❌ generateContent をサポートするモデルが見つかりません".

Definition init_failed_prefix : string := "Gemini の初期化に失敗しました: ".

(** Lines 66-87: the choice among the supported names, with the list of
    line 72 as a parameter. *)
Definition select_model (priorities supported_models : list string)
  : UI (option GenerativeModel) :=
  match supported_models with
  | [] =>
      emit (St Page error (Str no_supported_model_msg)) ;;
      emit (St Sidebar error
              (Str "generateContent をサポートするモデルがありません")) ;;
      ret None
  | first :: _ =>
      selected_model <-
        (let selected_model := scan_priorities priorities supported_models in
         if negb (Py.truthy_opt selected_model) then
           let selected_model := first in
           emit (St Page warning
                   (Str ("⚠️ 優先モデルが見つかりません。" ++ selected_model
                         ++ " を使用します。"))) ;;
           ret selected_model
         else
           let selected_model :=
             match selected_model with Some s => s | None => first end in
           emit (St Page success
                   (Str ("✅ " ++ selected_model ++ " を使用します"))) ;;
           ret selected_model) ;;
      ret (Some {| model_name := selected_model |})
  end.

(** The body of [initialize_gemini].  [list_models] is what
    [genai.configure] followed by [list(genai.list_models())] gives: the
    message of the exception raised, or the catalog. *)
Definition initialize_gemini_with (priorities : list string)
    (api_key : string) (list_models : string + list Model)
  : UI (option GenerativeModel) :=
  try_except
    (emit (St Sidebar write (Str (key_preview api_key))) ;;
     models <- match list_models with
               | inl msg => raise (Exception msg)
               | inr models => ret models
               end ;;
     emit (St Sidebar subheader (Str "🔍 利用可能なモデル")) ;;
     for_each models (fun model =>
       emit (St Sidebar text
               (NameMethods "• " (short_name model) (getattr_methods model)))) ;;
     supported_models <- collect_supported models [] ;;
     emit (St Sidebar subheader (Str "🔍 デバッグ情報")) ;;
     for_each (firstn 10 models) (fun model =>
       emit (St Sidebar text
               (NameMethods EmptyString (short_name model)
                  (getattr_methods model)))) ;;
     select_model priorities supported_models)
    (fun e =>
       emit (St Page error (Str (init_failed_prefix ++ e))) ;;
       emit (St Sidebar error (Str ("エラー詳細: " ++ e))) ;;
       ret None).

Definition initialize_gemini := initialize_gemini_with priority_models.

(** ** [get_api_key] *)

(** What the script reads from outside: the secret store, the widgets and
    the two operations of the remote service. *)
Record World := {
  (** [st.secrets]: [None] when reading it raises, [Some None] when it has
      no "GOOGLE_API_KEY", else the stored key. *)
  secrets : option (option string);
  (** What is typed in the sidebar's key field. *)
  sidebar_api_key : string;
  (** [genai.configure] then [list(genai.list_models())]. *)
  list_models : string + list Model;
  (** [model.generate_content(prompt)] then [response.text]: the message
      of the exception raised, or the text. *)
  generate_content : GenerativeModel -> string -> string + string;
  (** The three text fields, the select box and the two buttons. *)
  ingredient1 : string;
  ingredient2 : string;
  ingredient3 : string;
  cuisine_type : string;
  suggest_clicked : bool;
  copy_clicked : bool
}.

Definition get_api_key (w : World) : UI (option string) :=
  match secrets w with
  | Some (Some key) => ret (Some key)
  | _ =>
      emit (St Sidebar warning
              (Str "⚠️ GOOGLE_API_KEY が secrets に見つかりません")) ;;
      emit (St Sidebar text_input (Str "Google API Key を入力してください")) ;;
      let api_key := sidebar_api_key w in
      if Py.truthy api_key then
        emit (St Sidebar success (Str "✅ API キーが設定されました")) ;;
        ret (Some api_key)
      else
        emit (St Sidebar error (Str "❌ API キーが必要です")) ;;
        ret None
  end.

(** ** [generate_dinner_suggestion] *)

(** Lines 100-102: the placeholder of an ingredient that is not given. *)
Definition unspecified : string := "未指定".

(** [x if x else "未指定"]. *)
Definition or_unspecified (x : option string) : string :=
  match x with
  | Some s => if Py.truthy s then s else unspecified
  | None => unspecified
  end.

(** [ingredients[i]]: raises [IndexError] past the end. *)
Definition item (ingredients : list (option string)) (i : nat)
  : UI (option string) :=
  match nth_error ingredients i with
  | Some x => ret x
  | None => raise (Exception "list index out of range")
  end.

(** Lines 96-117: the f-string, cut at its five holes. *)
Definition prompt_text (i0 i1 i2 : option string) (cuisine_type : string)
  : string :=
"
以下の情報を基に、美味しい晩ごはん料理を提案してください。

【食材】
- 食材1: " ++ or_unspecified i0 ++ "
- 食材2: " ++ or_unspecified i1 ++ "
- 食材3: " ++ or_unspecified i2 ++ "

【料理ジャンル】
" ++ cuisine_type ++ "

【提案形式】
以下の形式で提案してください：

1. 料理名
2. 材料（リスト形式）
3. 簡単な作り方（手順を番号で）
4. AIのワンポイントアドバイス

食材を効果的に活用し、" ++ cuisine_type ++ "の特色を生かした料理を提案してください。
未指定の食材は、料理に合うものを自由に追加してください。
".

Definition format_prompt (ingredients : list (option string))
    (cuisine_type : string) : UI string :=
  i0 <- item ingredients 0 ;;
  i1 <- item ingredients 1 ;;
  i2 <- item ingredients 2 ;;
  ret (prompt_text i0 i1 i2 cuisine_type).

Definition timeout_msg : string :=
  "⏰ タイムアウトしました。少し時間を置いて再度お試しください。".

(** Line 127. *)
Definition looks_like_timeout (e : string) : bool :=
  Py.contains "timeout" (Py.lower e) || Py.contains "deadline" (Py.lower e).

Definition generate_dinner_suggestion
    (generate_content : GenerativeModel -> string -> string + string)
    (model : GenerativeModel) (ingredients : list (option string))
    (cuisine_type : string) : UI (option string) :=
  prompt <- format_prompt ingredients cuisine_type ;;
  try_except
    (emit (GenerateContent (model_name model) prompt) ;;
     match generate_content model prompt with
     | inl msg => raise (Exception msg)
     | inr response_text => ret (Some response_text)
     end)
    (fun e =>
       emit (St Page error
               (Str ("AIの応答生成中にエラーが発生しました: " ++ e))) ;;
       emit (St Sidebar error (Str ("生成エラー詳細: " ++ e))) ;;
       (if looks_like_timeout e
        then emit (St Page warning (Str timeout_msg))
        else ret tt) ;;
       ret None).

(** ** [main] *)

(** Line 172. *)
Definition cuisine_options : list string :=
  ["和食"; "洋食"; "中華"; "イタリアン"; "メキシカン"; "韓国料理"; "インド料理";
   "その他"].

Definition no_ingredient_msg : string :=
  "⚠️ 少なくとも1つの食材を入力してください".

Definition usage_text : string := "
        1. **APIキーの設定**: 
           - Streamlit Cloud の場合は secrets に `GOOGLE_API_KEY` を設定
           - ローカルの場合はサイドバーから手動入力
        
        2. **食材の入力**: 
           - 3つの食材を入力（未入力でも可）
           - 冷蔵庫にある食材などを入力
        
        3. **料理ジャンルの選択**: 
           - 好みの料理ジャンルを選択
        
        4. **提案の生成**: 
           - 「晩ごはんを提案！」ボタンをクリック
           - AIが料理名、材料、作り方、アドバイスを提案
        ".

(** Lines 201-218. *)
Definition usage_panel : UI unit :=
  emit (St Page expander (Str "📖 使い方")) ;;
  emit (St Page markdown (Str usage_text)).

(** Lines 156-218: the form, once a model is there.  The [return] of line
    183 leaves [main] before the usage panel. *)
Definition main_form (w : World) (model : GenerativeModel) : UI unit :=
  emit (St Page subheader (Str "📝 料理の条件を入力")) ;;
  emit (St Page columns (Str "3")) ;;
  emit (St Page text_input (Str "食材 1")) ;;
  emit (St Page text_input (Str "食材 2")) ;;
  emit (St Page text_input (Str "食材 3")) ;;
  emit (St Page selectbox (Str "料理ジャンル")) ;;
  emit (St Page button (Str "🍽️ 晩ごはんを提案！")) ;;
  if suggest_clicked w then
    let ingredients :=
      [Some (ingredient1 w); Some (ingredient2 w); Some (ingredient3 w)] in
    if negb (Py.any ingredients) then
      emit (St Page warning (Str no_ingredient_msg))
    else
      emit (St Page spinner (Str "🤖 AIが料理を考えています...")) ;;
      suggestion <- generate_dinner_suggestion (generate_content w) model
                      ingredients (cuisine_type w) ;;
      (match suggestion with
       | Some shown =>
           if Py.truthy shown then
             emit (St Page success (Str "✅ 料理提案が完了しました！")) ;;
             emit (St Page markdown (Str "---")) ;;
             emit (St Page subheader (Str "🍽️ AIからの提案")) ;;
             emit (St Page markdown (Str shown)) ;;
             emit (St Page markdown (Str "---")) ;;
             emit (St Page button (Str "📋 提案をクリップボードにコピー")) ;;
             if copy_clicked w then
               emit (St Page write
                 (Str "提案内容をコピーしました（ブラウザの機能を使用してください）"))
             else ret tt
           else ret tt
       | None => ret tt
       end) ;;
      usage_panel
  else usage_panel.

Definition main (w : World) : UI unit :=
  emit (St Page set_page_config (Str "AI晩ごはん提案アプリ")) ;;
  emit (St Page title (Str "🍳 AI晩ごはん提案アプリ")) ;;
  emit (St Page markdown (Str "---")) ;;
  api_key <- get_api_key w ;;
  api_key <- match api_key with
             | Some key =>
                 if Py.truthy key then ret key
                 else emit (St Page warning (Str "⚠️ APIキーを設定してください")) ;;
                      raise StopException
             | None =>
                 emit (St Page warning (Str "⚠️ APIキーを設定してください")) ;;
                 raise StopException
             end ;;
  model <- initialize_gemini api_key (list_models w) ;;
  match model with
  | Some model => main_form w model
  | None =>
      emit (St Page error (Str "❌ AIモデルの初期化に失敗しました")) ;;
      raise StopException
  end.

(** ** The words of the specification, over the code *)

(** A descriptor's identifier is the short name the script works with. *)
Definition identifier (d : Model) : string := short_name d.

(** A capable descriptor has "generateContent" among its operations. *)
Definition capable (d : Model) : bool :=
  match supported_generation_methods d with
  | Some ms => Py.in_list "generateContent" ms
  | None => false
  end.

(** The identifiers of the capable descriptors, in catalog order. *)
Definition capable_ids (catalog : list Model) : list string :=
  map identifier (filter capable catalog).

Definition is_capable_id (catalog : list Model) (id : string) : Prop :=
  exists d, In d catalog /\ capable d = true /\ identifier d = id.

(** What [initialize_gemini] returns for a list of supported names. *)
Definition choose (priorities supported_models : list string) : option string :=
  match supported_models with
  | [] => None
  | first :: _ =>
      Some match scan_priorities priorities supported_models with
           | Some priority => if Py.truthy priority then priority else first
           | None => first
           end
  end.

(** The element is drawn in the sidebar. *)
Definition in_sidebar (e : Event) : Prop := exists c x, e = St Sidebar c x.

(** The two failures of [initialize_gemini], as the page shows them. *)
Definition NoCapableModel : Event := St Page error (Str no_supported_model_msg).
Definition InitFailed (e : string) : Event :=
  St Page error (Str (init_failed_prefix ++ e)).

(** What the page shows once the catalog has been listed. *)
Definition verdict (priorities supported_models : list string) : list Event :=
  match choose priorities supported_models with
  | None =>
      [NoCapableModel;
       St Sidebar error (Str "generateContent をサポートするモデルがありません")]
  | Some id =>
      if Py.truthy_opt (scan_priorities priorities supported_models)
      then [St Page success (Str ("✅ " ++ id ++ " を使用します"))]
      else [St Page warning
              (Str ("⚠️ 優先モデルが見つかりません。" ++ id ++ " を使用します。"))]
  end.

(** The number of positions of [s] at which [sub] starts. *)
Fixpoint occurrences (sub s : string) : nat :=
  match s with
  | EmptyString => if prefix sub EmptyString then 1 else 0
  | String _ s' => (if prefix sub s then 1 else 0) + occurrences sub s'
  end.

(** The byte [c] is one of the bytes of [s]. *)
Fixpoint has_byte (c : ascii) (s : string) : bool :=
  match s with
  | EmptyString => false
  | String c' s' => Ascii.eqb c c' || has_byte c s'
  end.

Definition first_byte (s : string) : option ascii :=
  match s with
  | EmptyString => None
  | String c _ => Some c
  end.

Fixpoint last_byte (s : string) : option ascii :=
  match s with
  | EmptyString => None
  | String c EmptyString => Some c
  | String _ s' => last_byte s'
  end.

(** The text starts, or ends, with a byte that the word lacks. *)
Definition starts_outside (pat b : string) : bool :=
  match first_byte b with
  | Some c => negb (has_byte c pat)
  | None => false
  end.

Definition ends_outside (pat a : string) : bool :=
  match last_byte a with
  | Some c => negb (has_byte c pat)
  | None => false
  end.

(** A byte that [str.isspace] accepts: space, tab, line feed, vertical
    tab, form feed, carriage return. *)
Definition is_space (c : ascii) : bool :=
  let n := nat_of_ascii c in
  (n =? 32)%nat || ((9 <=? n) && (n <=? 13))%nat.

Fixpoint all_space (s : string) : bool :=
  match s with
  | EmptyString => true
  | String c s' => is_space c && all_space s'
  end.

(** An ingredient is absent or blank: [None], or nothing but white
    space. *)
Definition absent_or_blank (x : option string) : bool :=
  match x with
  | None => true
  | Some s => all_space s
  end.

(** An ingredient is absent or empty: what [or_unspecified] replaces. *)
Definition absent_or_empty (x : option string) : bool :=
  negb (Py.truthy_opt x).

(** The placeholders a given ingredient brings in by its own text. *)
Definition own_occurrences (x : option string) : nat :=
  match x with
  | Some s => occurrences unspecified s
  | None => 0
  end.

(** The sixth claim, as the specification words it, at one input. *)
Definition prompt_as_specified (i0 i1 i2 : option string) (cuisine : string)
  : Prop :=
  exists p,
    result (format_prompt [i0; i1; i2] cuisine) = inr p /\
    p <> EmptyString /\
    2 <= occurrences cuisine p /\
    occurrences unspecified p = length (filter absent_or_blank [i0; i1; i2]).

(** The failures of [generate_dinner_suggestion], as the page shows
    them. *)
Definition GenerationFailed (e : string) : Event :=
  St Page error (Str ("AIの応答生成中にエラーが発生しました: " ++ e)).
Definition GenerationTimedOut : Event := St Page warning (Str timeout_msg).

(** The eighth claim's test, as the specification words it: the message
    itself holds one of the two words. *)
Definition names_timeout (e : string) : bool :=
  Py.contains "timeout" e || Py.contains "deadline" e.

(** The event is a call of the remote generation. *)
Definition is_generation (e : Event) : Prop :=
  match e with
  | GenerateContent _ _ => True
  | St _ _ _ => False
  end.

(** No event of the list is a call of the remote generation. *)
Definition quiet (es : list Event) : Prop :=
  Forall (fun e => ~ is_generation e) es.

(** ** Words for the rest of the script *)

(** The key [main] goes on with: the stored one when the secret store has
    it, else what is typed in the sidebar. *)
Definition key_of (w : World) : string :=
  match secrets w with
  | Some (Some key) => key
  | _ => sidebar_api_key w
  end.

(** The secret store can be read and has "GOOGLE_API_KEY". *)
Definition has_secret (w : World) : bool :=
  match secrets w with
  | Some (Some _) => true
  | _ => false
  end.

(** The catalog could be fetched and has a capable descriptor. *)
Definition has_capable (list_models : string + list Model) : bool :=
  match list_models with
  | inr catalog => existsb capable catalog
  | inl _ => false
  end.

(** A widget of the form: a text field, the select box or a button of
    the page. *)
Definition is_form_widget (e : Event) : Prop :=
  match e with
  | St Page text_input _ | St Page selectbox _ | St Page button _ => True
  | _ => False
  end.

(** What lines 157-177 draw. *)
Definition form_shown : list Event :=
  [St Page subheader (Str "📝 料理の条件を入力");
   St Page columns (Str "3");
   St Page text_input (Str "食材 1");
   St Page text_input (Str "食材 2");
   St Page text_input (Str "食材 3");
   St Page selectbox (Str "料理ジャンル");
   St Page button (Str "🍽️ 晩ごはんを提案！")].

(** What lines 189-199 draw for the text [shown]. *)
Definition suggestion_shown (shown : string) (copy_clicked : bool)
  : list Event :=
  [St Page success (Str "✅ 料理提案が完了しました！");
   St Page markdown (Str "---");
   St Page subheader (Str "🍽️ AIからの提案");
   St Page markdown (Str shown);
   St Page markdown (Str "---");
   St Page button (Str "📋 提案をクリップボードにコピー")]
  ++ (if copy_clicked
      then [St Page write
              (Str "提案内容をコピーしました（ブラウザの機能を使用してください）")]
      else []).


(** What [generate_dinner_suggestion] returns for an outcome of the
    remote call, and what it shows for it. *)
Definition answer_of (outcome : string + string) : option string :=
  match outcome with
  | inr answer => Some answer
  | inl _ => None
  end.

Definition failure_shown (outcome : string + string) : list Event :=
  match outcome with
  | inr _ => []
  | inl e =>
      [GenerationFailed e; St Sidebar error (Str ("生成エラー詳細: " ++ e))]
      ++ (if looks_like_timeout e then [GenerationTimedOut] else [])
  end.

(** What [main] draws for the answer of [generate_dinner_suggestion]. *)
Definition answer_shown (answer : option string) (copy_clicked : bool)
  : list Event :=
  match answer with
  | Some shown =>
      if Py.truthy shown then suggestion_shown shown copy_clicked else []
  | None => []
  end.

(** What lines 133-140 draw. *)
Definition page_head : list Event :=
  [St Page set_page_config (Str "AI晩ごはん提案アプリ");
   St Page title (Str "🍳 AI晩ごはん提案アプリ");
   St Page markdown (Str "---")].

(** No event of the list is a widget of the form. *)
Definition formless (es : list Event) : Prop :=
  Forall (fun e => ~ is_form_widget e) es.

(** * Proofs *)

(** ** The monad *)

Lemma bind_ret_l {A B} (a : A) (k : A -> UI B) : bind (ret a) k = k a.
Proof. unfold bind, ret. destruct (k a). reflexivity. Qed.

Lemma bind_emit {B} (e : Event) (k : unit -> UI B) :
  bind (emit e) k = (fst (k tt), e :: snd (k tt)).
Proof. unfold bind, emit. destruct (k tt). reflexivity. Qed.

Lemma bind_value {A B} (a : A) (es : list Event) (k : A -> UI B) :
  bind (inr a, es) k = (fst (k a), es ++ snd (k a)).
Proof. unfold bind. destruct (k a). reflexivity. Qed.

Lemma bind_raised {A B} (e : Raised) (es : list Event) (k : A -> UI B) :
  bind (inl e, es) k = (inl e, es).
Proof. reflexivity. Qed.

Lemma for_each_emit {A} (f : A -> Event) (xs : list A) :
  for_each xs (fun x => emit (f x)) = (inr tt, map f xs).
Proof.
  induction xs as [|x xs IH]; cbn [for_each map].
  - reflexivity.
  - rewrite bind_emit, IH. reflexivity.
Qed.

(** ** The Python functions on examples *)

Example short_name_of_path :
  short_name {| name := "models/gemini-2.5-flash";
                supported_generation_methods := None |} = "gemini-2.5-flash".
Proof. reflexivity. Qed.

Example short_name_without_slash :
  short_name {| name := "gemini-pro-latest";
                supported_generation_methods := None |} = "gemini-pro-latest".
Proof. reflexivity. Qed.

Example short_name_trailing_slash :
  short_name {| name := "tunedModels/";
                supported_generation_methods := None |} = EmptyString.
Proof. reflexivity. Qed.

Example split_keeps_empty_fields :
  Py.split "/"%char "a//b" = ["a"; EmptyString; "b"].
Proof. reflexivity. Qed.

Example lower_keeps_other_bytes :
  Py.lower "504 Deadline Exceeded (試行)" = "504 deadline exceeded (試行)".
Proof. reflexivity. Qed.

Example contains_inside : Py.contains "deadline" "504 deadline exceeded" = true.
Proof. reflexivity. Qed.

Example contains_is_case_sensitive :
  Py.contains "deadline" "504 Deadline Exceeded" = false.
Proof. reflexivity. Qed.

(** ** The capability filter *)

Lemma supports_generateContent_capable (d : Model) :
  supports_generateContent d = ret (capable d).
Proof.
  unfold supports_generateContent, hasattr_methods, attr_methods, capable.
  destruct (supported_generation_methods d) as [ms|].
  - rewrite bind_ret_l. reflexivity.
  - reflexivity.
Qed.

Lemma collect_supported_capable (models : list Model) (acc : list string) :
  collect_supported models acc =
  (inr (acc ++ capable_ids models),
   map (fun id => St Sidebar write (Str ("✅ サポート: " ++ id)))
       (capable_ids models)).
Proof.
  revert acc. induction models as [|d models IH]; intros acc.
  - unfold capable_ids. simpl. rewrite app_nil_r. reflexivity.
  - cbn [collect_supported].
    rewrite supports_generateContent_capable, bind_ret_l.
    unfold capable_ids in *. cbn [filter]. destruct (capable d); cbv zeta.
    + rewrite bind_emit, IH. cbn [map fst snd]. rewrite <- app_assoc.
      reflexivity.
    + apply IH.
Qed.

Lemma in_list_In (x : string) (xs : list string) :
  Py.in_list x xs = true <-> In x xs.
Proof.
  unfold Py.in_list. rewrite existsb_exists. split.
  - intros [y [Hy Heq]]. apply String.eqb_eq in Heq. subst. exact Hy.
  - intros H. exists x. split; [exact H | apply String.eqb_refl].
Qed.

Lemma capable_ids_spec (catalog : list Model) (id : string) :
  In id (capable_ids catalog) <-> is_capable_id catalog id.
Proof.
  unfold capable_ids, is_capable_id. rewrite in_map_iff. split.
  - intros [d [Hid Hd]]. apply filter_In in Hd. destruct Hd as [Hin Hc].
    exists d. auto.
  - intros [d [Hin [Hc Hid]]]. exists d. split; [exact Hid |].
    apply filter_In. auto.
Qed.

Lemma capable_ids_none (catalog : list Model) :
  (forall d, In d catalog -> capable d = false) <-> capable_ids catalog = [].
Proof.
  unfold capable_ids. induction catalog as [|d ds IH]; simpl.
  - tauto.
  - split.
    + intros H. rewrite (H d (or_introl eq_refl)). apply IH.
      intros d' Hd'. apply H. right. exact Hd'.
    + intros H d' [Heq | Hin].
      * subst d'. destruct (capable d); [discriminate | reflexivity].
      * destruct (capable d); [discriminate |]. apply IH; assumption.
Qed.

Lemma capable_ids_first (pre post : list Model) (d : Model) :
  (forall x, In x pre -> capable x = false) -> capable d = true ->
  capable_ids (pre ++ d :: post) = identifier d :: capable_ids post.
Proof.
  intros Hpre Hd. unfold capable_ids. rewrite filter_app. simpl. rewrite Hd.
  apply capable_ids_none in Hpre. unfold capable_ids in Hpre.
  apply map_eq_nil in Hpre. rewrite Hpre. reflexivity.
Qed.

(** ** The choice *)

Lemma select_model_choose (priorities sup : list string) :
  select_model priorities sup =
  (inr (option_map Build_GenerativeModel (choose priorities sup)),
   verdict priorities sup).
Proof.
  unfold select_model, verdict, choose.
  destruct sup as [|first rest]; [reflexivity |].
  destruct (scan_priorities priorities (first :: rest)) as [s|]; cbn.
  - destruct s; reflexivity.
  - reflexivity.
Qed.

Lemma Forall_in_sidebar_map {A} (c : Call) (f : A -> Shown) (xs : list A) :
  Forall in_sidebar (map (fun x => St Sidebar c (f x)) xs).
Proof.
  apply Forall_forall. intros e He. apply in_map_iff in He.
  destruct He as [x [Hx _]]. subst e. exists c, (f x). reflexivity.
Qed.

(** On a catalog that was fetched, [initialize_gemini] does not raise: it
    lists the catalog in the sidebar, then returns and shows what
    [select_model] decides. *)
Lemma initialize_gemini_catalog (priorities : list string) (k : string)
    (models : list Model) :
  exists shown,
    Forall in_sidebar shown /\
    initialize_gemini_with priorities k (inr models) =
    (inr (option_map Build_GenerativeModel
            (choose priorities (capable_ids models))),
     shown ++ verdict priorities (capable_ids models)).
Proof.
  unfold initialize_gemini_with.
  rewrite bind_emit, bind_ret_l, bind_emit, for_each_emit, bind_value.
  rewrite collect_supported_capable, bind_value, bind_emit, for_each_emit.
  rewrite bind_value, select_model_choose. cbn [fst snd app try_except].
  eexists. split; [| rewrite !app_comm_cons, !app_assoc; reflexivity].
  repeat first
    [ apply Forall_app; split
    | apply Forall_cons; [eexists _, _; reflexivity |]
    | apply Forall_in_sidebar_map
    | apply (Forall_in_sidebar_map write (fun id => Str _)) ].
Qed.

Lemma initialize_gemini_result (priorities : list string) (k : string)
    (models : list Model) :
  result (initialize_gemini_with priorities k (inr models)) =
  inr (option_map Build_GenerativeModel
         (choose priorities (capable_ids models))).
Proof.
  destruct (initialize_gemini_catalog priorities k models) as [shown [_ H]].
  unfold result. rewrite H. reflexivity.
Qed.

(** When the catalog cannot be fetched the handler runs. *)
Lemma initialize_gemini_fetch_failed (priorities : list string) (k e : string) :
  initialize_gemini_with priorities k (inl e) =
  (inr None,
   [St Sidebar write (Str (key_preview k)); InitFailed e;
    St Sidebar error (Str ("エラー詳細: " ++ e))]).
Proof. reflexivity. Qed.

Lemma scan_priorities_first (pre post sup : list string) (p : string) :
  (forall q, In q pre -> ~ In q sup) -> In p sup ->
  scan_priorities (pre ++ p :: post) sup = Some p.
Proof.
  intros Hpre Hp. induction pre as [|q pre IH]; simpl.
  - apply in_list_In in Hp. rewrite Hp. reflexivity.
  - destruct (Py.in_list q sup) eqn:Hq.
    + apply in_list_In in Hq. exfalso. apply (Hpre q); simpl; auto.
    + apply IH. intros q' Hq'. apply Hpre. simpl. auto.
Qed.

Lemma scan_priorities_none (priorities sup : list string) :
  (forall q, In q priorities -> ~ In q sup) ->
  scan_priorities priorities sup = None.
Proof.
  intros H. induction priorities as [|q qs IH]; simpl.
  - reflexivity.
  - destruct (Py.in_list q sup) eqn:Hq.
    + apply in_list_In in Hq. exfalso. apply (H q); simpl; auto.
    + apply IH. intros q' Hq'. apply H. simpl. auto.
Qed.

Lemma scan_priorities_some (priorities sup : list string) (s : string) :
  scan_priorities priorities sup = Some s -> In s priorities /\ In s sup.
Proof.
  induction priorities as [|q qs IH]; simpl; [discriminate |].
  destruct (Py.in_list q sup) eqn:Hq.
  - intros E. injection E as <-. apply in_list_In in Hq. auto.
  - intros E. destruct (IH E). auto.
Qed.

Lemma priority_models_truthy (p : string) :
  In p priority_models -> Py.truthy p = true.
Proof.
  unfold priority_models. simpl.
  intros [<- | [<- | [<- | [<- | []]]]]; reflexivity.
Qed.

Lemma choose_in (priorities sup : list string) (id : string) :
  choose priorities sup = Some id -> In id sup.
Proof.
  unfold choose. destruct sup as [|first rest]; [discriminate |].
  destruct (scan_priorities priorities (first :: rest)) as [s|] eqn:Hs.
  - apply scan_priorities_some in Hs. destruct Hs as [_ Hs].
    destruct (Py.truthy s); intros E; injection E as <-; simpl; auto.
  - intros E. injection E as <-. simpl. auto.
Qed.

Lemma choose_none (priorities sup : list string) :
  choose priorities sup = None <-> sup = [].
Proof.
  unfold choose. destruct sup; split; intros H; try reflexivity; discriminate.
Qed.

Lemma no_supported_is_not_init_failed (e : string) :
  NoCapableModel <> InitFailed e.
Proof. unfold NoCapableModel, InitFailed. intros H. discriminate H. Qed.

Lemma verdict_not_init_failed (priorities sup : list string) (e : string) :
  ~ In (InitFailed e) (verdict priorities sup).
Proof.
  unfold verdict. intros H.
  destruct (choose priorities sup) as [id|].
  - destruct (Py.truthy_opt (scan_priorities priorities sup));
      destruct H as [H | []]; discriminate H.
  - destruct H as [H | [H | []]]; discriminate H.
Qed.

Lemma in_sidebar_not_init_failed (shown : list Event) (e : string) :
  Forall in_sidebar shown -> ~ In (InitFailed e) shown.
Proof.
  intros Hs Hin. rewrite Forall_forall in Hs.
  destruct (Hs _ Hin) as [c [x Hx]]. discriminate Hx.
Qed.

(** ** The claims on the selector *)

(** C1: when some entry of the priority list names a capable descriptor
    of the catalog, [initialize_gemini] returns the model of the earliest
    such entry: the entries before it name no capable descriptor, whatever
    the order of the catalog. *)
Theorem earliest_priority_wins (api_key : string) (catalog : list Model)
    (pre post : list string) (p : string) :
  priority_models = pre ++ p :: post ->
  is_capable_id catalog p ->
  (forall q, In q pre -> ~ is_capable_id catalog q) ->
  result (initialize_gemini api_key (inr catalog)) =
  inr (Some {| model_name := p |}).
Proof.
  intros Hsplit Hp Hpre. unfold initialize_gemini.
  rewrite initialize_gemini_result. do 2 f_equal.
  assert (Hin : In p (capable_ids catalog)) by (apply capable_ids_spec, Hp).
  unfold choose. destruct (capable_ids catalog) as [|first rest] eqn:Hsup.
  - destruct Hin.
  - rewrite Hsplit, scan_priorities_first; [| | exact Hin].
    + rewrite priority_models_truthy; [reflexivity |].
      rewrite Hsplit. apply in_elt.
    + intros q Hq Hq'. apply (Hpre q Hq). apply capable_ids_spec.
      rewrite Hsup. exact Hq'.
Qed.

Lemma earliest_priority_wins_witness :
  result
    (initialize_gemini "AIzaSyA-0123456789"
       (inr [ {| name := "models/embedding-001";
                 supported_generation_methods := Some ["embedContent"] |};
              {| name := "models/gemini-pro-latest";
                 supported_generation_methods := Some ["generateContent"] |};
              {| name := "models/gemini-2.0-flash";
                 supported_generation_methods :=
                   Some ["generateContent"; "countTokens"] |} ])) =
  inr (Some {| model_name := "gemini-2.0-flash" |}).
Proof.
  apply (earliest_priority_wins _ _
           ["gemini-3-flash-preview"; "gemini-2.5-flash"]
           ["gemini-pro-latest"]).
  - reflexivity.
  - apply capable_ids_spec. vm_compute. tauto.
  - intros q Hq Hc. apply capable_ids_spec in Hc. vm_compute in Hc.
    destruct Hq as [<- | [<- | []]];
      destruct Hc as [Hc | [Hc | []]]; discriminate Hc.
Defined.

(** C2: when no capable descriptor's identifier is in the priority list
    and some descriptor is capable, [initialize_gemini] returns the model
    of the first capable descriptor in the order of the catalog. *)
Theorem fallback_first_capable (api_key : string) (priorities : list string)
    (catalog pre post : list Model) (d : Model) :
  catalog = pre ++ d :: post ->
  (forall x, In x pre -> capable x = false) ->
  capable d = true ->
  (forall q, In q priorities -> ~ is_capable_id catalog q) ->
  result (initialize_gemini_with priorities api_key (inr catalog)) =
  inr (Some {| model_name := identifier d |}).
Proof.
  intros Hcat Hpre Hd Hnone. rewrite initialize_gemini_result.
  do 2 f_equal. unfold choose.
  rewrite scan_priorities_none.
  - rewrite Hcat, (capable_ids_first pre post d Hpre Hd). reflexivity.
  - intros q Hq Hin. apply (Hnone q Hq). apply capable_ids_spec. exact Hin.
Qed.

Lemma fallback_first_capable_witness :
  result
    (initialize_gemini "AIzaSyA-0123456789"
       (inr [ {| name := "models/embedding-001";
                 supported_generation_methods := Some ["embedContent"] |};
              {| name := "models/legacy-model";
                 supported_generation_methods := Some ["generateContent"] |};
              {| name := "tunedModels/chef";
                 supported_generation_methods := Some ["generateContent"] |} ])) =
  inr (Some {| model_name := "legacy-model" |}).
Proof.
  apply (fallback_first_capable _ priority_models _
           [ {| name := "models/embedding-001";
                supported_generation_methods := Some ["embedContent"] |} ]
           [ {| name := "tunedModels/chef";
                supported_generation_methods := Some ["generateContent"] |} ]
           {| name := "models/legacy-model";
              supported_generation_methods := Some ["generateContent"] |}).
  - reflexivity.
  - intros x [<- | []]. reflexivity.
  - reflexivity.
  - intros q Hq Hc. apply capable_ids_spec in Hc. vm_compute in Hc, Hq.
    destruct Hq as [<- | [<- | [<- | [<- | []]]]];
      destruct Hc as [Hc | [Hc | []]]; discriminate Hc.
Defined.

(** C3: on a fetched catalog [initialize_gemini] never raises, and it
    returns no model exactly when no descriptor of the catalog supports
    "generateContent" (the empty catalog included); the page then shows
    the no-capable-model error after the sidebar's listing, and on no
    catalog does it show the initialisation failure. *)
Theorem no_capable_model_only_failure (api_key : string)
    (priorities : list string) (catalog : list Model) :
  (result (initialize_gemini_with priorities api_key (inr catalog)) = inr None
   <-> forall d, In d catalog -> capable d = false) /\
  (exists r,
     result (initialize_gemini_with priorities api_key (inr catalog)) = inr r) /\
  ((forall d, In d catalog -> capable d = false) ->
   exists shown,
     Forall in_sidebar shown /\
     events (initialize_gemini_with priorities api_key (inr catalog)) =
     shown ++
     [NoCapableModel;
      St Sidebar error (Str "generateContent をサポートするモデルがありません")]) /\
  (forall e,
     ~ In (InitFailed e)
          (events (initialize_gemini_with priorities api_key (inr catalog)))).
Proof.
  destruct (initialize_gemini_catalog priorities api_key catalog)
    as [shown [Hside Hrun]].
  unfold result, events. rewrite Hrun. cbn [fst snd].
  repeat split.
  - intros H. apply capable_ids_none.
    destruct (choose priorities (capable_ids catalog)) eqn:Hc;
      [discriminate H |]. apply choose_none in Hc. exact Hc.
  - intros H. apply capable_ids_none in H. rewrite H. reflexivity.
  - eexists. reflexivity.
  - intros H. apply capable_ids_none in H. exists shown. rewrite H.
    split; [exact Hside | reflexivity].
  - intros e Hin. apply in_app_or in Hin. destruct Hin as [Hin | Hin].
    + exact (in_sidebar_not_init_failed shown e Hside Hin).
    + exact (verdict_not_init_failed _ _ e Hin).
Qed.

Lemma no_capable_model_only_failure_witness :
  result (initialize_gemini "AIzaSyA-0123456789" (inr [])) = inr None /\
  result
    (initialize_gemini "AIzaSyA-0123456789"
       (inr [ {| name := "models/embedding-only";
                 supported_generation_methods := Some ["embedText"] |} ])) =
  inr None.
Proof.
  split.
  - apply (proj1 (no_capable_model_only_failure _ priority_models [])).
    intros d [].
  - apply (proj1 (no_capable_model_only_failure _ priority_models _)).
    intros d [<- | []]. reflexivity.
Defined.

(** C4: whatever the catalog and the priority list, a model that
    [initialize_gemini] returns bears the identifier of a descriptor of
    the catalog that supports "generateContent". *)
Theorem selected_is_capable (api_key : string) (priorities : list string)
    (catalog : list Model) (id : string) :
  result (initialize_gemini_with priorities api_key (inr catalog)) =
  inr (Some {| model_name := id |}) ->
  is_capable_id catalog id.
Proof.
  rewrite initialize_gemini_result. intros H.
  apply capable_ids_spec. apply (choose_in priorities).
  destruct (choose priorities (capable_ids catalog)) as [id'|];
    [| discriminate H].
  injection H as ->. reflexivity.
Qed.

Lemma selected_is_capable_witness :
  is_capable_id
    [ {| name := "models/gemini-pro-latest";
         supported_generation_methods := Some ["generateContent"] |};
      {| name := "models/aqa";
         supported_generation_methods := Some ["generateAnswer"] |} ]
    "gemini-pro-latest".
Proof.
  apply (selected_is_capable "AIzaSyA-0123456789" ["aqa"; "gemini-pro-latest"]).
  reflexivity.
Defined.

(** C5: the model returned is a function of the catalog response and the
    priority list alone.  Two calls on the same two inputs return the same
    result, whatever the key shown in the sidebar, also when the second
    call follows the first in one run. *)
Theorem selection_is_deterministic (priorities : list string)
    (k1 k2 : string) (list_models : string + list Model) :
  exists r,
    result (initialize_gemini_with priorities k1 list_models) = inr r /\
    result (initialize_gemini_with priorities k2 list_models) = inr r /\
    result (r1 <- initialize_gemini_with priorities k1 list_models ;;
            r2 <- initialize_gemini_with priorities k2 list_models ;;
            ret (r1, r2)) = inr (r, r) /\
    r = match list_models with
        | inr catalog =>
            option_map Build_GenerativeModel
              (choose priorities (capable_ids catalog))
        | inl _ => None
        end.
Proof.
  destruct list_models as [e | catalog].
  - exists None. rewrite !initialize_gemini_fetch_failed. repeat split.
  - destruct (initialize_gemini_catalog priorities k1 catalog) as [s1 [_ H1]].
    destruct (initialize_gemini_catalog priorities k2 catalog) as [s2 [_ H2]].
    eexists. rewrite H1, H2. repeat split.
Qed.

(** C7: on a catalog of two capable descriptors, "gemini-pro-latest" then
    "gemini-2.5-flash", [initialize_gemini] returns "gemini-2.5-flash". *)
Theorem scenario_second_priority (api_key : string) (d1 d2 : Model) :
  identifier d1 = "gemini-pro-latest" -> capable d1 = true ->
  identifier d2 = "gemini-2.5-flash" -> capable d2 = true ->
  priority_models =
    ["gemini-3-flash-preview"; "gemini-2.5-flash"; "gemini-2.0-flash";
     "gemini-pro-latest"] /\
  result (initialize_gemini api_key (inr [d1; d2])) =
  inr (Some {| model_name := "gemini-2.5-flash" |}).
Proof.
  intros Hid1 Hc1 Hid2 Hc2. split; [reflexivity |].
  unfold initialize_gemini. rewrite initialize_gemini_result.
  unfold capable_ids. simpl. rewrite Hc1, Hc2. simpl.
  rewrite Hid1, Hid2. reflexivity.
Qed.

Lemma scenario_second_priority_witness :
  result
    (initialize_gemini "AIzaSyA-0123456789"
       (inr [ {| name := "models/gemini-pro-latest";
                 supported_generation_methods := Some ["generateContent"] |};
              {| name := "models/gemini-2.5-flash";
                 supported_generation_methods := Some ["generateContent"] |} ])) =
  inr (Some {| model_name := "gemini-2.5-flash" |}).
Proof.
  apply (scenario_second_priority "AIzaSyA-0123456789"
           {| name := "models/gemini-pro-latest";
              supported_generation_methods := Some ["generateContent"] |}
           {| name := "models/gemini-2.5-flash";
              supported_generation_methods := Some ["generateContent"] |});
    reflexivity.
Defined.

(** C10: a descriptor without the [supported_generation_methods]
    attribute is not capable: the test of line 54 answers [False] on it
    without reading the attribute, so without raising.  The selection
    therefore returns on every catalog, and a catalog of such descriptors
    only gives the no-capable-model error, not the initialisation
    failure of the [except] branch. *)
Theorem missing_methods_not_capable (api_key : string)
    (priorities : list string) (catalog : list Model) :
  (forall d, supported_generation_methods d = None ->
     supports_generateContent d = ret false /\ capable d = false) /\
  ((forall d, In d catalog -> supported_generation_methods d = None) ->
   result (initialize_gemini_with priorities api_key (inr catalog)) = inr None /\
   In NoCapableModel
      (events (initialize_gemini_with priorities api_key (inr catalog))) /\
   forall e,
     ~ In (InitFailed e)
          (events (initialize_gemini_with priorities api_key (inr catalog)))).
Proof.
  assert (Hcap : forall d, supported_generation_methods d = None ->
                           capable d = false).
  { intros d Hd. unfold capable. rewrite Hd. reflexivity. }
  split.
  - intros d Hd. split; [| exact (Hcap d Hd)].
    rewrite supports_generateContent_capable, (Hcap d Hd). reflexivity.
  - intros Hall.
    assert (Hnone : capable_ids catalog = []).
    { apply capable_ids_none. intros d Hd. apply Hcap, Hall, Hd. }
    destruct (initialize_gemini_catalog priorities api_key catalog)
      as [shown [Hside Hrun]].
    unfold result, events. rewrite Hrun, Hnone. cbn [fst snd].
    repeat split.
    + apply in_or_app. right. left. reflexivity.
    + intros e Hin. apply in_app_or in Hin. destruct Hin as [Hin | Hin].
      * exact (in_sidebar_not_init_failed shown e Hside Hin).
      * exact (verdict_not_init_failed priorities [] e Hin).
Qed.

Lemma missing_methods_not_capable_witness :
  result
    (initialize_gemini "AIzaSyA-0123456789"
       (inr [ {| name := "models/chat-bison-001";
                 supported_generation_methods := None |};
              {| name := "models/text-bison-001";
                 supported_generation_methods := None |} ])) = inr None.
Proof.
  apply (proj2 (missing_methods_not_capable "AIzaSyA-0123456789"
                  priority_models _)).
  intros d [<- | [<- | []]]; reflexivity.
Defined.

(** ** Counting a word in a text *)

Lemma has_byte_head (c p : ascii) (s : string) :
  has_byte c (String p s) = false -> p <> c /\ has_byte c s = false.
Proof.
  simpl. intros H. apply orb_false_iff in H. destruct H as [Hcp Hs].
  split; [| exact Hs]. intros ->. rewrite Ascii.eqb_refl in Hcp.
  discriminate.
Qed.

Lemma prefix_head_differs (p c : ascii) (pat s : string) :
  p <> c -> prefix (String p pat) (String c s) = false.
Proof. intros H. simpl. destruct (ascii_dec p c); [contradiction | reflexivity]. Qed.

Lemma prefix_empty (s : string) : prefix EmptyString s = true.
Proof. destruct s; reflexivity. Qed.

Lemma prefix_app_self (pat r : string) : prefix pat (pat ++ r) = true.
Proof.
  induction pat as [|a pat IH]; simpl.
  - apply prefix_empty.
  - destruct (ascii_dec a a); [exact IH | contradiction].
Qed.

(** A text that starts with a byte foreign to the word cannot complete an
    occurrence begun before it. *)
Lemma prefix_app_first (c0 : ascii) (pat x b : string) :
  has_byte c0 pat = false -> first_byte b = Some c0 ->
  prefix pat (x ++ b) = prefix pat x.
Proof.
  intros Hpat Hb. destruct b as [|c b']; [discriminate |].
  injection Hb as ->. revert pat Hpat.
  induction x as [|h x IH]; intros pat Hpat.
  - destruct pat as [|p pat]; [reflexivity |].
    apply has_byte_head in Hpat. destruct Hpat as [Hp _].
    cbn [append]. rewrite (prefix_head_differs _ _ _ _ Hp). reflexivity.
  - destruct pat as [|p pat]; [reflexivity |].
    apply has_byte_head in Hpat. destruct Hpat as [_ Hpat].
    simpl. destruct (ascii_dec p h); [apply IH, Hpat | reflexivity].
Qed.

(** A text that ends with a byte foreign to the word cannot begin an
    occurrence completed after it. *)
Lemma prefix_app_last (c0 : ascii) (pat x b : string) :
  has_byte c0 pat = false -> last_byte x = Some c0 ->
  prefix pat (x ++ b) = prefix pat x.
Proof.
  intros Hpat Hx. revert pat Hpat.
  induction x as [|h x IH]; intros pat Hpat; [discriminate |].
  destruct pat as [|p pat]; [reflexivity |].
  apply has_byte_head in Hpat. destruct Hpat as [Hp Hpat].
  destruct x as [|h' x].
  - injection Hx as ->. cbn [append].
    rewrite !(prefix_head_differs _ _ _ _ Hp). reflexivity.
  - cbn [append prefix] in *.
    destruct (ascii_dec p h); [apply (IH Hx), Hpat | reflexivity].
Qed.

Lemma occurrences_nil (pat : string) :
  pat <> EmptyString -> occurrences pat EmptyString = 0.
Proof. destruct pat; [contradiction | reflexivity]. Qed.

Lemma occurrences_app_first (pat a b : string) :
  pat <> EmptyString -> starts_outside pat b = true ->
  occurrences pat (a ++ b) = occurrences pat a + occurrences pat b.
Proof.
  unfold starts_outside. intros Hne Hb.
  destruct (first_byte b) as [c0|] eqn:Hc0; [| discriminate].
  apply negb_true_iff in Hb. induction a as [|h a IH].
  - rewrite (occurrences_nil pat Hne). reflexivity.
  - change (String h a ++ b)%string with (String h (a ++ b))%string.
    cbn [occurrences]. rewrite IH.
    change (String h (a ++ b))%string with (String h a ++ b)%string.
    rewrite (prefix_app_first c0 pat (String h a) b Hb Hc0). lia.
Qed.

Lemma occurrences_app_last (pat a b : string) :
  pat <> EmptyString -> ends_outside pat a = true ->
  occurrences pat (a ++ b) = occurrences pat a + occurrences pat b.
Proof.
  unfold ends_outside. intros Hne Ha.
  destruct (last_byte a) as [c0|] eqn:Hc0; [| discriminate].
  apply negb_true_iff in Ha. induction a as [|h a IH]; [discriminate |].
  change (String h a ++ b)%string with (String h (a ++ b))%string.
  cbn [occurrences].
  change (String h (a ++ b))%string with (String h a ++ b)%string.
  rewrite (prefix_app_last c0 pat (String h a) b Ha Hc0).
  destruct a as [|h' a].
  - cbn [append]. rewrite (occurrences_nil pat Hne). lia.
  - rewrite IH by exact Hc0. lia.
Qed.

Lemma occurrences_suffix_le (pat a b : string) :
  occurrences pat b <= occurrences pat (a ++ b).
Proof.
  induction a as [|h a IH]; [apply Nat.le_refl |].
  change (String h a ++ b)%string with (String h (a ++ b))%string.
  cbn [occurrences]. lia.
Qed.

Lemma occurrences_prefix_pos (pat s : string) :
  prefix pat s = true -> 1 <= occurrences pat s.
Proof. intros H. destruct s; cbn [occurrences]; rewrite H; lia. Qed.

Lemma append_assoc (a b c : string) :
  ((a ++ b) ++ c = a ++ b ++ c)%string.
Proof. induction a as [|h a IH]; simpl; [reflexivity | rewrite IH; reflexivity]. Qed.

(** A word written twice with something in between is counted twice. *)
Lemma occurrences_twice (c t r : string) :
  t <> EmptyString -> 2 <= occurrences c (c ++ t ++ c ++ r).
Proof.
  intros Ht. destruct c as [|h c].
  - destruct t as [|h t]; [contradiction |].
    cbn [append occurrences prefix].
    pose proof (occurrences_prefix_pos _ _ (prefix_empty (t ++ r))). lia.
  - pose proof (prefix_app_self (String h c) (t ++ String h c ++ r)) as Hp.
    change (String h c ++ t ++ String h c ++ r)%string
      with (String h (c ++ t ++ String h c ++ r))%string in *.
    cbn [occurrences]. rewrite Hp.
    rewrite <- (append_assoc c t).
    pose proof (occurrences_suffix_le (String h c) (c ++ t) (String h c ++ r)).
    pose proof (occurrences_prefix_pos _ _ (prefix_app_self (String h c) r)).
    lia.
Qed.

Lemma occurrences_or_unspecified (x : option string) :
  occurrences unspecified (or_unspecified x) =
  (if absent_or_empty x then 1 else own_occurrences x).
Proof. destruct x as [[|c s]|]; reflexivity. Qed.

Lemma unspecified_nonempty : unspecified <> EmptyString.
Proof. discriminate. Qed.

Lemma format_prompt_three (i0 i1 i2 : option string) (cuisine : string) :
  format_prompt [i0; i1; i2] cuisine = ret (prompt_text i0 i1 i2 cuisine).
Proof. reflexivity. Qed.

(** Rewrites the count over [a ++ b] into the sum of the two counts,
    where [a] ends or [b] starts with a byte that [unspecified] lacks. *)
Ltac split_count :=
  match goal with
  | |- context [occurrences unspecified (?a ++ ?b)] =>
      first
        [ rewrite (occurrences_app_last unspecified a b
                     unspecified_nonempty eq_refl)
        | rewrite (occurrences_app_first unspecified a b
                     unspecified_nonempty eq_refl) ]
  end.

Lemma prompt_text_count (i0 i1 i2 : option string) (cuisine : string) :
  occurrences unspecified (prompt_text i0 i1 i2 cuisine) =
  1 + length (filter absent_or_empty [i0; i1; i2])
    + own_occurrences i0 + own_occurrences i1 + own_occurrences i2
    + 2 * occurrences unspecified cuisine.
Proof.
  unfold prompt_text.
  do 10 split_count.
  repeat match goal with
         | |- context [occurrences unspecified (String ?c ?t)] =>
             let n := eval vm_compute in (occurrences unspecified (String c t)) in
             change (occurrences unspecified (String c t)) with n
         end.
  rewrite !occurrences_or_unspecified. cbn [filter].
  destruct (absent_or_empty i0) eqn:E0, (absent_or_empty i1) eqn:E1,
    (absent_or_empty i2) eqn:E2; cbn [length];
    repeat match goal with
           | E : absent_or_empty ?x = true |- _ =>
               assert (own_occurrences x = 0)
                 by (destruct x as [[|? ?]|]; [reflexivity | discriminate E
                                                | reflexivity]);
               clear E
           end; lia.
Qed.

Lemma prompt_text_nonempty (i0 i1 i2 : option string) (cuisine : string) :
  prompt_text i0 i1 i2 cuisine <> EmptyString.
Proof. unfold prompt_text. cbn [append]. discriminate. Qed.

Lemma prompt_text_cuisine_twice (i0 i1 i2 : option string) (cuisine : string) :
  2 <= occurrences cuisine (prompt_text i0 i1 i2 cuisine).
Proof.
  unfold prompt_text.
  do 7 (eapply Nat.le_trans; [| apply occurrences_suffix_le]).
  apply occurrences_twice. discriminate.
Qed.

(** ** The claim on the prompt *)

(** C6, as the specification words it, fails at two inputs.  With an empty
    second ingredient the placeholder stands twice in the prompt, not
    once: the last line of the template names it too.  With three
    ingredients of one space each it stands once, not three times: a
    blank ingredient is kept as it is. *)
Lemma prompt_as_specified_fails :
  ~ prompt_as_specified (Some "chicken") (Some EmptyString) (Some "carrot")
      "イタリアン" /\
  ~ prompt_as_specified (Some " ") (Some " ") (Some " ") "和食".
Proof.
  split; intros [p [Hp [_ [_ Hcount]]]];
    rewrite format_prompt_three in Hp; injection Hp as <-;
    vm_compute in Hcount; discriminate Hcount.
Qed.

(** C6, amended: for all three ingredients, given, empty or absent, and
    every cuisine, [format_prompt] returns a prompt that is not empty and
    holds the cuisine at least twice.  The placeholder stands in for each
    ingredient that is absent or empty (a blank one is kept), and once
    more in the last line of the template: the prompt holds it once, plus
    once per absent or empty ingredient, plus the times the ingredients
    given and the two copies of the cuisine hold it themselves. *)
Theorem format_prompt_total (i0 i1 i2 : option string) (cuisine : string) :
  exists p,
    result (format_prompt [i0; i1; i2] cuisine) = inr p /\
    p <> EmptyString /\
    2 <= occurrences cuisine p /\
    occurrences unspecified p =
    1 + length (filter absent_or_empty [i0; i1; i2])
      + own_occurrences i0 + own_occurrences i1 + own_occurrences i2
      + 2 * occurrences unspecified cuisine.
Proof.
  exists (prompt_text i0 i1 i2 cuisine). repeat split.
  - apply prompt_text_nonempty.
  - apply prompt_text_cuisine_twice.
  - apply prompt_text_count.
Qed.

(** ** The claim on the generation call *)

Lemma generate_on_failure
    (client : GenerativeModel -> string -> string + string)
    (model : GenerativeModel) (i0 i1 i2 : option string) (cuisine e : string) :
  client model (prompt_text i0 i1 i2 cuisine) = inl e ->
  generate_dinner_suggestion client model [i0; i1; i2] cuisine =
  (inr None,
   [GenerateContent (model_name model) (prompt_text i0 i1 i2 cuisine);
    GenerationFailed e;
    St Sidebar error (Str ("生成エラー詳細: " ++ e))]
   ++ (if looks_like_timeout e then [GenerationTimedOut] else [])).
Proof.
  intros He. unfold generate_dinner_suggestion.
  rewrite format_prompt_three, bind_ret_l, bind_emit, He.
  unfold GenerationFailed, GenerationTimedOut, try_except, raise.
  cbn [fst snd]. cbv beta.
  destruct (looks_like_timeout e); reflexivity.
Qed.

(** C8, as the specification words it, fails on a message that spells
    the word with a capital: the page shows the timeout warning, though
    the message itself holds neither "timeout" nor "deadline". *)
Lemma timeout_test_as_specified_fails :
  ~ (In GenerationTimedOut
        (events
           (generate_dinner_suggestion
              (fun _ _ => inl "504 Deadline Exceeded")
              {| model_name := "gemini-2.5-flash" |}
              [Some "鶏肉"; Some EmptyString; Some EmptyString] "和食"))
     <-> names_timeout "504 Deadline Exceeded" = true).
Proof.
  intros [Hshown _].
  assert (H : names_timeout "504 Deadline Exceeded" = true).
  { apply Hshown.
    rewrite (generate_on_failure _ _ _ _ _ _ "504 Deadline Exceeded" eq_refl).
    unfold events. cbn [snd]. apply in_or_app. right.
    vm_compute. left. reflexivity. }
  vm_compute in H. discriminate H.
Qed.

(** C8, amended: an exception of the generation client is caught.
    [generate_dinner_suggestion] returns [None], no text, and the page
    shows the generation error with the message; it shows the timeout
    warning as well exactly when the message, put in lower case, holds
    "timeout" or "deadline". *)
Theorem generation_failure_is_caught
    (client : GenerativeModel -> string -> string + string)
    (model : GenerativeModel) (i0 i1 i2 : option string) (cuisine e : string) :
  client model (prompt_text i0 i1 i2 cuisine) = inl e ->
  result (generate_dinner_suggestion client model [i0; i1; i2] cuisine) =
  inr None /\
  In (GenerationFailed e)
     (events (generate_dinner_suggestion client model [i0; i1; i2] cuisine)) /\
  (In GenerationTimedOut
      (events (generate_dinner_suggestion client model [i0; i1; i2] cuisine))
   <-> Py.contains "timeout" (Py.lower e) = true \/
       Py.contains "deadline" (Py.lower e) = true).
Proof.
  intros He. rewrite (generate_on_failure _ _ _ _ _ _ _ He).
  unfold result, events. cbn [fst snd]. split; [reflexivity |].
  split; [right; left; reflexivity |].
  rewrite <- orb_true_iff. fold (looks_like_timeout e).
  destruct (looks_like_timeout e); cbn [app]; split.
  - reflexivity.
  - intros _. do 3 right. left. reflexivity.
  - intros [H | [H | [H | []]]]; discriminate H.
  - discriminate.
Qed.

Lemma generation_failure_is_caught_witness :
  result
    (generate_dinner_suggestion
       (fun _ _ => inl "504 Deadline Exceeded")
       {| model_name := "gemini-2.5-flash" |}
       [Some "鶏肉"; Some EmptyString; None] "和食") = inr None.
Proof.
  refine (proj1 (generation_failure_is_caught
                   (fun _ _ => inl "504 Deadline Exceeded")
                   {| model_name := "gemini-2.5-flash" |}
                   (Some "鶏肉") (Some EmptyString) None "和食"
                   "504 Deadline Exceeded" _)).
  reflexivity.
Defined.

(** ** The claim on the empty form *)

Lemma quiet_bind {A B} (m : UI A) (k : A -> UI B) :
  quiet (events m) -> (forall a, quiet (events (k a))) ->
  quiet (events (bind m k)).
Proof.
  intros Hm Hk. destruct m as [[e | a] es]; unfold bind.
  - exact Hm.
  - specialize (Hk a). destruct (k a) as [r es'].
    apply Forall_app. split; assumption.
Qed.

Lemma quiet_emit_st (p : Place) (c : Call) (x : Shown) :
  quiet (events (emit (St p c x))).
Proof. repeat constructor. intros H; exact H. Qed.

Lemma quiet_ret {A} (a : A) : quiet (events (ret a)).
Proof. constructor. Qed.

Lemma quiet_raise {A} (e : Raised) : quiet (events (@raise A e)).
Proof. constructor. Qed.

Lemma quiet_sidebar (es : list Event) : Forall in_sidebar es -> quiet es.
Proof.
  apply Forall_impl. intros e [c [x ->]] H. exact H.
Qed.

Lemma quiet_verdict (priorities sup : list string) :
  quiet (verdict priorities sup).
Proof.
  unfold verdict.
  destruct (choose priorities sup);
    [destruct (Py.truthy_opt (scan_priorities priorities sup)) |];
    repeat constructor; intros H; exact H.
Qed.

Lemma quiet_initialize_gemini (priorities : list string) (k : string)
    (list_models : string + list Model) :
  quiet (events (initialize_gemini_with priorities k list_models)).
Proof.
  destruct list_models as [e | models].
  - rewrite initialize_gemini_fetch_failed.
    repeat constructor; intros H; exact H.
  - destruct (initialize_gemini_catalog priorities k models)
      as [shown [Hside Hrun]].
    rewrite Hrun. apply Forall_app. split.
    + apply quiet_sidebar, Hside.
    + apply quiet_verdict.
Qed.

Lemma quiet_get_api_key (w : World) : quiet (events (get_api_key w)).
Proof.
  unfold get_api_key.
  destruct (secrets w) as [[key|]|]; [apply quiet_ret | |];
    destruct (Py.truthy (sidebar_api_key w));
    repeat constructor; intros H; exact H.
Qed.

Lemma main_form_empty (w : World) (model : GenerativeModel) :
  ingredient1 w = EmptyString -> ingredient2 w = EmptyString ->
  ingredient3 w = EmptyString -> suggest_clicked w = true ->
  main_form w model =
  (inr tt,
   [St Page subheader (Str "📝 料理の条件を入力");
    St Page columns (Str "3");
    St Page text_input (Str "食材 1");
    St Page text_input (Str "食材 2");
    St Page text_input (Str "食材 3");
    St Page selectbox (Str "料理ジャンル");
    St Page button (Str "🍽️ 晩ごはんを提案！")]
   ++ [St Page warning (Str no_ingredient_msg)]).
Proof.
  intros H1 H2 H3 Hc. unfold main_form. rewrite H1, H2, H3, Hc. reflexivity.
Qed.

Lemma quiet_main_form_empty (w : World) (model : GenerativeModel) :
  ingredient1 w = EmptyString -> ingredient2 w = EmptyString ->
  ingredient3 w = EmptyString ->
  quiet (events (main_form w model)).
Proof.
  intros H1 H2 H3. destruct (suggest_clicked w) eqn:Hc.
  - rewrite (main_form_empty w model H1 H2 H3 Hc).
    repeat constructor; intros H; exact H.
  - unfold main_form. rewrite Hc.
    repeat constructor; intros H; exact H.
Qed.

(** C9: with the three ingredient fields empty, a click on the button
    ends [main] on the warning that asks for an ingredient: nothing is
    shown after it, the remote generation is not called, and no run of
    [main] with three empty fields calls it. *)
Theorem no_generation_without_ingredients (w : World) :
  ingredient1 w = EmptyString -> ingredient2 w = EmptyString ->
  ingredient3 w = EmptyString ->
  (forall model, suggest_clicked w = true ->
     result (main_form w model) = inr tt /\
     exists shown,
       events (main_form w model) =
       shown ++ [St Page warning (Str no_ingredient_msg)] /\
       quiet shown) /\
  quiet (events (main w)).
Proof.
  intros H1 H2 H3. split.
  - intros model Hc. rewrite (main_form_empty w model H1 H2 H3 Hc).
    split; [reflexivity |]. eexists. split; [reflexivity |].
    repeat constructor; intros H; exact H.
  - unfold main.
    repeat (apply quiet_bind; [apply quiet_emit_st | intros _]).
    apply quiet_bind; [apply quiet_get_api_key | intros api_key].
    apply quiet_bind.
    + destruct api_key as [key|]; [destruct (Py.truthy key) |];
        repeat first [ apply quiet_ret | apply quiet_raise
                     | apply quiet_bind; [apply quiet_emit_st | intros _] ].
    + intros key. apply quiet_bind; [apply quiet_initialize_gemini |].
      intros [model|].
      * apply quiet_main_form_empty; assumption.
      * apply quiet_bind; [apply quiet_emit_st | intros _].
        apply quiet_raise.
Qed.

Lemma no_generation_without_ingredients_witness :
  quiet
    (events
       (main {| secrets := Some (Some "AIzaSyA-0123456789");
                sidebar_api_key := EmptyString;
                list_models :=
                  inr [ {| name := "models/gemini-2.5-flash";
                           supported_generation_methods :=
                             Some ["generateContent"] |} ];
                generate_content := fun _ _ => inr "肉じゃが";
                ingredient1 := EmptyString;
                ingredient2 := EmptyString;
                ingredient3 := EmptyString;
                cuisine_type := "和食";
                suggest_clicked := true;
                copy_clicked := false |})).
Proof.
  refine (proj2 (no_generation_without_ingredients _ _ _ _)); reflexivity.
Defined.

(** With one ingredient given the same click does call the remote
    generation. *)
Example generation_with_one_ingredient :
  In (GenerateContent "gemini-2.5-flash"
        (prompt_text (Some "鶏肉") (Some EmptyString) (Some EmptyString) "和食"))
     (events
        (main {| secrets := Some (Some "AIzaSyA-0123456789");
                 sidebar_api_key := EmptyString;
                 list_models :=
                   inr [ {| name := "models/gemini-2.5-flash";
                            supported_generation_methods :=
                              Some ["generateContent"] |} ];
                 generate_content := fun _ _ => inr "肉じゃが";
                 ingredient1 := "鶏肉";
                 ingredient2 := EmptyString;
                 ingredient3 := EmptyString;
                 cuisine_type := "和食";
                 suggest_clicked := true;
                 copy_clicked := false |})).
Proof. vm_compute. repeat first [left; reflexivity | right]. Qed.

(** * Further properties of the script *)

(** ** The short name of a model *)

Lemma last_byte_cons (c : ascii) (p : string) :
  p <> EmptyString -> last_byte (String c p) = last_byte p.
Proof. destruct p; [contradiction | reflexivity]. Qed.

Lemma last_cons_nonempty {A} (x d : A) (l : list A) :
  l <> [] -> last (x :: l) d = last l d.
Proof. destruct l; [contradiction | reflexivity]. Qed.

(** The pieces of a split text: the last one has no separator, and either
    it is the whole text, alone, or the text before it ends with the
    separator. *)
Lemma split_last (sep : ascii) (s : string) :
  exists p,
    s = (p ++ last (Py.split sep s) EmptyString)%string /\
    has_byte sep (last (Py.split sep s) EmptyString) = false /\
    ((p = EmptyString /\ Py.split sep s = [s]) \/
     (last_byte p = Some sep /\ tl (Py.split sep s) <> [])).
Proof.
  induction s as [|c s IH].
  - exists EmptyString. simpl. auto.
  - destruct IH as [p [Hs [Hfree Hcase]]]. cbn [Py.split].
    destruct (Ascii.eqb c sep) eqn:Hc.
    + apply Ascii.eqb_eq in Hc. subst c.
      assert (Hne : Py.split sep s <> []).
      { destruct Hcase as [[_ H] | [_ H]]; [rewrite H; discriminate |].
        intros E. rewrite E in H. apply H. reflexivity. }
      exists (String sep p). rewrite (last_cons_nonempty _ _ _ Hne).
      split; [cbn [append]; rewrite <- Hs; reflexivity |].
      split; [exact Hfree |]. right. split; [| exact Hne].
      destruct Hcase as [[-> _] | [Hp _]]; [reflexivity |].
      rewrite last_byte_cons; [exact Hp |]. intros ->. discriminate Hp.
    + destruct Hcase as [[-> Hone] | [Hp Htl]].
      * rewrite Hone in *. cbn [last] in *. exists EmptyString.
        split; [reflexivity |]. split.
        -- cbn [has_byte]. rewrite Ascii.eqb_sym, Hc. exact Hfree.
        -- left. auto.
      * destruct (Py.split sep s) as [|w ws]; [contradiction Htl; reflexivity |].
        cbn [tl] in Htl. cbv iota.
        rewrite (last_cons_nonempty w _ ws Htl) in Hs, Hfree.
        rewrite (last_cons_nonempty (String c w) _ ws Htl).
        exists (String c p). split; [cbn [append]; rewrite <- Hs; reflexivity |].
        split; [exact Hfree |]. right. split; [| exact Htl].
        rewrite last_byte_cons; [exact Hp |]. intros ->. discriminate Hp.
Qed.

(** X1: the short name of a model is what follows the last slash of its
    name: it has no slash, and the name is the short name itself or ends
    with a slash followed by the short name. *)
Theorem short_name_after_last_slash (model : Model) :
  has_byte "/"%char (short_name model) = false /\
  exists p,
    name model = (p ++ short_name model)%string /\
    (p = EmptyString \/ last_byte p = Some "/"%char).
Proof.
  unfold short_name, Py.last_item.
  destruct (split_last "/"%char (name model)) as [p [Hs [Hfree Hcase]]].
  split; [exact Hfree |]. exists p. split; [exact Hs |].
  destruct Hcase as [[Hp _] | [Hp _]]; auto.
Qed.

(** ** The key shown in the sidebar *)









(** ** [get_api_key] *)

(** X4: [get_api_key] never raises, also when the secret store cannot be
    read.  The stored key wins and then the sidebar shows nothing; else
    the sidebar asks for the key.  No key is returned exactly when the
    store has none and the sidebar's field is empty, and the sidebar then
    says that a key is needed; a key taken from the sidebar is never
    empty. *)
Theorem get_api_key_cases (w : World) :
  exists r,
    result (get_api_key w) = inr r /\
    (has_secret w = true -> r = Some (key_of w) /\ events (get_api_key w) = []) /\
    (has_secret w = false ->
       In (St Sidebar text_input (Str "Google API Key を入力してください"))
          (events (get_api_key w)) /\
       (r = None \/ (r = Some (sidebar_api_key w) /\
                     sidebar_api_key w <> EmptyString))) /\
    (r = None <->
       has_secret w = false /\ sidebar_api_key w = EmptyString) /\
    (r = None <->
       In (St Sidebar error (Str "❌ API キーが必要です"))
          (events (get_api_key w))).
Proof.
  unfold get_api_key, has_secret, key_of.
  destruct (secrets w) as [[key|]|];
    [| destruct (sidebar_api_key w) as [|c s] eqn:Hside ..];
    cbn; eexists; (split; [reflexivity |]); repeat split;
    try discriminate; try tauto; try reflexivity;
    try (right; split; [reflexivity | discriminate]);
    try (intros [_ H]; discriminate H);
    try (intros [H _]; discriminate H);
    try (intros [H | [H | [H | []]]]; discriminate H).
Qed.

Lemma get_api_key_cases_witness :
  exists r,
    result
      (get_api_key
         {| secrets := None;
            sidebar_api_key := EmptyString;
            list_models := inr [];
            generate_content := fun _ _ => inr "肉じゃが";
            ingredient1 := EmptyString;
            ingredient2 := EmptyString;
            ingredient3 := EmptyString;
            cuisine_type := "和食";
            suggest_clicked := false;
            copy_clicked := false |}) = inr r /\
    r = None.
Proof.
  destruct (get_api_key_cases
              {| secrets := None;
                 sidebar_api_key := EmptyString;
                 list_models := inr [];
                 generate_content := fun _ _ => inr "肉じゃが";
                 ingredient1 := EmptyString;
                 ingredient2 := EmptyString;
                 ingredient3 := EmptyString;
                 cuisine_type := "和食";
                 suggest_clicked := false;
                 copy_clicked := false |})
    as [r [Hr [_ [_ [Hnone _]]]]].
  exists r. split; [exact Hr |]. apply Hnone. split; reflexivity.
Defined.

(** ** What [initialize_gemini] shows *)

(** X5: on a fetched catalog the sidebar shows, in this order, the key's
    preview, every model with its methods, one line per model that
    supports "generateContent" in the order of the catalog, and under the
    debug heading the first ten models again; the page's message comes
    last. *)
Theorem initialize_gemini_listing (priorities : list string) (api_key : string)
    (catalog : list Model) :
  events (initialize_gemini_with priorities api_key (inr catalog)) =
  [St Sidebar write (Str (key_preview api_key));
   St Sidebar subheader (Str "🔍 利用可能なモデル")]
  ++ map (fun d => St Sidebar text
                     (NameMethods "• " (short_name d) (getattr_methods d)))
         catalog
  ++ map (fun id => St Sidebar write (Str ("✅ サポート: " ++ id)))
         (capable_ids catalog)
  ++ [St Sidebar subheader (Str "🔍 デバッグ情報")]
  ++ map (fun d => St Sidebar text
                     (NameMethods EmptyString (short_name d)
                        (getattr_methods d)))
         (firstn 10 catalog)
  ++ verdict priorities (capable_ids catalog).
Proof.
  unfold initialize_gemini_with.
  rewrite bind_emit, bind_ret_l, bind_emit, for_each_emit, bind_value.
  rewrite collect_supported_capable, bind_value, bind_emit, for_each_emit.
  rewrite bind_value, select_model_choose. reflexivity.
Qed.

Lemma scan_priorities_none_inv (priorities sup : list string) :
  scan_priorities priorities sup = None ->
  forall q, In q priorities -> ~ In q sup.
Proof.
  induction priorities as [|x xs IH]; simpl; [intros _ q [] |].
  destruct (Py.in_list x sup) eqn:Hx; [discriminate |].
  intros Hscan q [<- | Hq] Hin.
  - apply in_list_In in Hin. congruence.
  - exact (IH Hscan q Hq Hin).
Qed.

(** X6: when [initialize_gemini] returns a model, the page shows one
    message, after the sidebar's lines, and it names that model: the
    success when the model is on the priority list, the warning of the
    fallback when it is not, which happens only when no name of the
    priority list is capable. *)
Theorem page_message_names_model (api_key : string) (catalog : list Model)
    (id : string) :
  result (initialize_gemini api_key (inr catalog)) =
    inr (Some {| model_name := id |}) ->
  exists shown message,
    events (initialize_gemini api_key (inr catalog)) = shown ++ [message] /\
    Forall in_sidebar shown /\
    ((In id priority_models /\
      message = St Page success (Str ("✅ " ++ id ++ " を使用します"))) \/
     (~ In id priority_models /\
      (forall q, In q priority_models -> ~ is_capable_id catalog q) /\
      message = St Page warning
                  (Str ("⚠️ 優先モデルが見つかりません。" ++ id
                        ++ " を使用します。")))).
Proof.
  unfold initialize_gemini.
  destruct (initialize_gemini_catalog priority_models api_key catalog)
    as [shown [Hside Hrun]].
  unfold result, events. rewrite Hrun. cbn [fst snd]. intros Hres.
  exists shown. unfold verdict.
  destruct (choose priority_models (capable_ids catalog)) as [id'|] eqn:Hch;
    [| discriminate Hres].
  injection Hres as ->. unfold choose in Hch.
  destruct (capable_ids catalog) as [|first rest] eqn:Hsup; [discriminate |].
  destruct (scan_priorities priority_models (first :: rest)) as [s|] eqn:Hscan.
  - destruct (scan_priorities_some _ _ _ Hscan) as [Hin _].
    rewrite (priority_models_truthy s Hin) in Hch. injection Hch as ->.
    cbn [Py.truthy_opt]. rewrite (priority_models_truthy id Hin).
    eexists. split; [reflexivity |]. split; [exact Hside |]. left. auto.
  - injection Hch as ->. cbn [Py.truthy_opt].
    eexists. split; [reflexivity |]. split; [exact Hside |]. right.
    pose proof (scan_priorities_none_inv _ _ Hscan) as Hnone.
    rewrite <- Hsup in Hnone.
    split; [| split; [| reflexivity]].
    + intros Hid. apply (Hnone id Hid). rewrite Hsup. left. reflexivity.
    + intros q Hq Hc. apply (Hnone q Hq). apply capable_ids_spec. exact Hc.
Qed.

Lemma page_message_names_model_witness :
  exists shown message,
    events
      (initialize_gemini "AIzaSyA-0123456789"
         (inr [ {| name := "models/legacy-model";
                   supported_generation_methods := Some ["generateContent"] |} ]))
    = shown ++ [message] /\
    Forall in_sidebar shown /\
    ((In "legacy-model" priority_models /\
      message = St Page success (Str ("✅ " ++ "legacy-model" ++ " を使用します"))) \/
     (~ In "legacy-model" priority_models /\
      (forall q, In q priority_models ->
         ~ is_capable_id
             [ {| name := "models/legacy-model";
                  supported_generation_methods := Some ["generateContent"] |} ]
             q) /\
      message = St Page warning
                  (Str ("⚠️ 優先モデルが見つかりません。" ++ "legacy-model"
                        ++ " を使用します。")))).
Proof.
  apply (page_message_names_model "AIzaSyA-0123456789"). reflexivity.
Defined.

(** ** What the selection does not depend on *)

(** X7: the descriptors that do not support "generateContent" play no
    part in the selection: two catalogs with the same capable descriptors
    in the same order give the same result, for every priority list. *)
Theorem incapable_descriptors_ignored (priorities : list string)
    (k1 k2 : string) (catalog1 catalog2 : list Model) :
  filter capable catalog1 = filter capable catalog2 ->
  result (initialize_gemini_with priorities k1 (inr catalog1)) =
  result (initialize_gemini_with priorities k2 (inr catalog2)).
Proof.
  intros H. rewrite !initialize_gemini_result. unfold capable_ids.
  rewrite H. reflexivity.
Qed.

Lemma incapable_descriptors_ignored_witness :
  result
    (initialize_gemini "AIzaSyA-0123456789"
       (inr [ {| name := "models/embedding-001";
                 supported_generation_methods := Some ["embedContent"] |};
              {| name := "models/gemini-2.0-flash";
                 supported_generation_methods := Some ["generateContent"] |};
              {| name := "models/aqa";
                 supported_generation_methods := None |} ])) =
  result
    (initialize_gemini "AIzaSyA-0123456789"
       (inr [ {| name := "models/gemini-2.0-flash";
                 supported_generation_methods := Some ["generateContent"] |} ])).
Proof.
  apply (incapable_descriptors_ignored priority_models). reflexivity.
Defined.

Lemma scan_priorities_same_members (priorities sup1 sup2 : list string) :
  (forall x, In x sup1 <-> In x sup2) ->
  scan_priorities priorities sup1 = scan_priorities priorities sup2.
Proof.
  intros H. induction priorities as [|q qs IH]; simpl; [reflexivity |].
  assert (E : Py.in_list q sup1 = Py.in_list q sup2).
  { destruct (Py.in_list q sup1) eqn:E1, (Py.in_list q sup2) eqn:E2;
      try reflexivity.
    - apply in_list_In, H, in_list_In in E1. congruence.
    - apply in_list_In, H, in_list_In in E2. congruence. }
  rewrite E, IH. reflexivity.
Qed.

(** X8: when some name of the priority list is capable, the order of the
    catalog and its repetitions do not matter: two catalogs with the same
    capable identifiers give the same model. *)
Theorem catalog_order_irrelevant_on_match (k1 k2 : string)
    (catalog1 catalog2 : list Model) (p : string) :
  (forall id, is_capable_id catalog1 id <-> is_capable_id catalog2 id) ->
  In p priority_models -> is_capable_id catalog1 p ->
  result (initialize_gemini k1 (inr catalog1)) =
  result (initialize_gemini k2 (inr catalog2)).
Proof.
  intros Hsame Hp Hcap. unfold initialize_gemini.
  rewrite !initialize_gemini_result. do 2 f_equal.
  assert (Hmem : forall x, In x (capable_ids catalog1) <->
                           In x (capable_ids catalog2)).
  { intros x. rewrite !capable_ids_spec. apply Hsame. }
  pose proof (scan_priorities_same_members priority_models _ _ Hmem) as Hscan.
  assert (Hp1 : In p (capable_ids catalog1)) by (apply capable_ids_spec, Hcap).
  assert (Hp2 : In p (capable_ids catalog2)) by (apply Hmem, Hp1).
  unfold choose. rewrite <- Hscan.
  destruct (scan_priorities priority_models (capable_ids catalog1))
    as [s|] eqn:Hs.
  - destruct (scan_priorities_some _ _ _ Hs) as [Hin _].
    rewrite (priority_models_truthy s Hin).
    destruct (capable_ids catalog1); [destruct Hp1 |].
    destruct (capable_ids catalog2); [destruct Hp2 |]. reflexivity.
  - exfalso. exact (scan_priorities_none_inv _ _ Hs p Hp Hp1).
Qed.

Lemma catalog_order_irrelevant_on_match_witness :
  result
    (initialize_gemini "AIzaSyA-0123456789"
       (inr [ {| name := "models/gemini-pro-latest";
                 supported_generation_methods := Some ["generateContent"] |};
              {| name := "models/gemini-2.0-flash";
                 supported_generation_methods := Some ["generateContent"] |} ])) =
  result
    (initialize_gemini "AIzaSyB-9876543210"
       (inr [ {| name := "models/gemini-2.0-flash";
                 supported_generation_methods := Some ["generateContent"] |};
              {| name := "models/gemini-pro-latest";
                 supported_generation_methods := Some ["generateContent"] |};
              {| name := "tunedModels/gemini-2.0-flash";
                 supported_generation_methods := Some ["generateContent"] |} ])).
Proof.
  apply (catalog_order_irrelevant_on_match _ _ _ _ "gemini-2.0-flash").
  - intros id. rewrite <- !capable_ids_spec. vm_compute. tauto.
  - vm_compute. tauto.
  - apply capable_ids_spec. vm_compute. tauto.
Defined.

(** ** The prompt and the generation call *)

Lemma prefix_contains (sub s : string) :
  prefix sub s = true -> Py.contains sub s = true.
Proof.
  intros H. destruct s; cbn [Py.contains]; [exact H |].
  rewrite H. reflexivity.
Qed.

Lemma contains_infix (sub a b : string) :
  Py.contains sub (a ++ sub ++ b) = true.
Proof.
  induction a as [|c a IH].
  - apply prefix_contains. exact (prefix_app_self sub b).
  - cbn [append Py.contains]. rewrite IH. apply orb_true_r.
Qed.

Lemma lower_app (a b : string) :
  Py.lower (a ++ b) = (Py.lower a ++ Py.lower b)%string.
Proof.
  induction a as [|c a IH]; simpl; [reflexivity | rewrite IH; reflexivity].
Qed.

(** X9: the three ingredients have to be there.  With fewer than three
    in the list, building the prompt raises [IndexError]; this happens
    before the [try], so nothing catches it, nothing is shown and the
    remote generation is not called. *)
Theorem prompt_needs_three_ingredients
    (client : GenerativeModel -> string -> string + string)
    (model : GenerativeModel) (ingredients : list (option string))
    (cuisine : string) :
  length ingredients < 3 ->
  generate_dinner_suggestion client model ingredients cuisine =
  (inl (Exception "list index out of range"), []).
Proof.
  intros Hlen.
  destruct ingredients as [|i0 [|i1 [|i2 rest]]]; try reflexivity.
  simpl in Hlen. lia.
Qed.

Lemma prompt_needs_three_ingredients_witness :
  generate_dinner_suggestion (fun _ _ => inr "肉じゃが")
    {| model_name := "gemini-2.5-flash" |} [Some "鶏肉"; Some "玉ねぎ"] "和食" =
  (inl (Exception "list index out of range"), []).
Proof.
  apply prompt_needs_three_ingredients. simpl. lia.
Defined.

(** X10: with three ingredients or more, [generate_dinner_suggestion]
    never raises and calls the remote generation once, first of all, with
    the model it was given and the prompt of the first three ingredients;
    there is no second try.  It returns the text of the answer, and
    [None] when the call failed. *)
Theorem generation_called_once
    (client : GenerativeModel -> string -> string + string)
    (model : GenerativeModel) (i0 i1 i2 : option string)
    (more : list (option string)) (cuisine : string) :
  exists rest,
    events (generate_dinner_suggestion client model
              (i0 :: i1 :: i2 :: more) cuisine) =
    GenerateContent (model_name model) (prompt_text i0 i1 i2 cuisine) :: rest /\
    quiet rest /\
    result (generate_dinner_suggestion client model
              (i0 :: i1 :: i2 :: more) cuisine) =
    inr match client model (prompt_text i0 i1 i2 cuisine) with
        | inr answer => Some answer
        | inl _ => None
        end.
Proof.
  unfold generate_dinner_suggestion.
  change (format_prompt (i0 :: i1 :: i2 :: more) cuisine)
    with (ret (A := string) (prompt_text i0 i1 i2 cuisine)).
  rewrite bind_ret_l, bind_emit.
  destruct (client model (prompt_text i0 i1 i2 cuisine)) as [e | answer].
  - unfold try_except, raise. cbn [fst snd]. cbv beta.
    destruct (looks_like_timeout e); eexists;
      (split; [reflexivity |]); split; try reflexivity;
      repeat constructor; intros H; exact H.
  - eexists. split; [reflexivity |]. split; [constructor | reflexivity].
Qed.

(** X11: every ingredient that is given, and the cuisine, stand in the
    prompt as they were typed. *)
Theorem prompt_holds_the_inputs (i0 i1 i2 : option string) (cuisine : string) :
  Py.contains cuisine (prompt_text i0 i1 i2 cuisine) = true /\
  forall s, s <> EmptyString ->
    (i0 = Some s \/ i1 = Some s \/ i2 = Some s) ->
    Py.contains s (prompt_text i0 i1 i2 cuisine) = true.
Proof.
  assert (Hgiven : forall s, s <> EmptyString -> or_unspecified (Some s) = s).
  { intros s Hs. destruct s; [contradiction | reflexivity]. }
  unfold prompt_text. split.
  - rewrite <- !append_assoc. rewrite !append_assoc.
    match goal with
    | |- Py.contains _ (?a ++ ?x ++ ?b ++ ?y ++ ?c ++ ?z ++ ?d ++ _ ++ ?r)%string = _ =>
        rewrite <- (append_assoc a), <- (append_assoc (a ++ x)),
          <- (append_assoc ((a ++ x) ++ b)),
          <- (append_assoc (((a ++ x) ++ b) ++ y)),
          <- (append_assoc ((((a ++ x) ++ b) ++ y) ++ c)),
          <- (append_assoc (((((a ++ x) ++ b) ++ y) ++ c) ++ z))
    end.
    apply contains_infix.
  - intros s Hs [-> | [-> | ->]]; rewrite (Hgiven s Hs).
    + apply contains_infix.
    + match goal with
      | |- Py.contains _ (?a ++ ?x ++ ?b ++ _)%string = _ =>
          rewrite <- (append_assoc a), <- (append_assoc (a ++ x))
      end.
      apply contains_infix.
    + match goal with
      | |- Py.contains _ (?a ++ ?x ++ ?b ++ ?y ++ ?c ++ _)%string = _ =>
          rewrite <- (append_assoc a), <- (append_assoc (a ++ x)),
            <- (append_assoc ((a ++ x) ++ b)),
            <- (append_assoc (((a ++ x) ++ b) ++ y))
      end.
      apply contains_infix.
Qed.

Lemma prompt_holds_the_inputs_witness :
  Py.contains "鶏肉"
    (prompt_text (Some "鶏肉") (Some EmptyString) None "和食") = true.
Proof.
  refine (proj2 (prompt_holds_the_inputs _ _ _ _) "鶏肉" _ _).
  - discriminate.
  - left. reflexivity.
Defined.

(** X12: the timeout warning does not depend on how the message is
    capitalised: it is shown for every message of a failed call that
    holds a word whose lower case is "timeout" or "deadline". *)
Theorem timeout_warning_any_capitals
    (client : GenerativeModel -> string -> string + string)
    (model : GenerativeModel) (i0 i1 i2 : option string)
    (cuisine before word after : string) :
  Py.lower word = "timeout" \/ Py.lower word = "deadline" ->
  client model (prompt_text i0 i1 i2 cuisine) =
    inl (before ++ word ++ after)%string ->
  In GenerationTimedOut
     (events (generate_dinner_suggestion client model [i0; i1; i2] cuisine)).
Proof.
  intros Hword He. rewrite (generate_on_failure _ _ _ _ _ _ _ He).
  unfold events. cbn [snd]. apply in_or_app. right.
  assert (Hyes : looks_like_timeout (before ++ word ++ after) = true).
  { unfold looks_like_timeout. rewrite !lower_app. apply orb_true_iff.
    destruct Hword as [-> | ->]; [left | right]; apply contains_infix. }
  rewrite Hyes. left. reflexivity.
Qed.

Lemma timeout_warning_any_capitals_witness :
  In GenerationTimedOut
     (events
        (generate_dinner_suggestion
           (fun _ _ => inl "Request TIMEOUT after 60s")
           {| model_name := "gemini-2.5-flash" |}
           [Some "鶏肉"; Some EmptyString; None] "和食")).
Proof.
  apply (timeout_warning_any_capitals _ _ _ _ _ _
           "Request " "TIMEOUT" " after 60s").
  - left. reflexivity.
  - reflexivity.
Defined.

(** ** Runs of [main] *)

Lemma generate_run
    (client : GenerativeModel -> string -> string + string)
    (model : GenerativeModel) (i0 i1 i2 : option string)
    (more : list (option string)) (cuisine : string) :
  generate_dinner_suggestion client model (i0 :: i1 :: i2 :: more) cuisine =
  (inr (answer_of (client model (prompt_text i0 i1 i2 cuisine))),
   GenerateContent (model_name model) (prompt_text i0 i1 i2 cuisine)
   :: failure_shown (client model (prompt_text i0 i1 i2 cuisine))).
Proof.
  unfold generate_dinner_suggestion.
  change (format_prompt (i0 :: i1 :: i2 :: more) cuisine)
    with (ret (A := string) (prompt_text i0 i1 i2 cuisine)).
  rewrite bind_ret_l, bind_emit.
  destruct (client model (prompt_text i0 i1 i2 cuisine)) as [e | answer].
  - unfold try_except, raise, failure_shown. cbn [fst snd]. cbv beta.
    destruct (looks_like_timeout e); reflexivity.
  - reflexivity.
Qed.

Lemma main_form_submitted (w : World) (model : GenerativeModel) :
  suggest_clicked w = true ->
  Py.any [Some (ingredient1 w); Some (ingredient2 w); Some (ingredient3 w)]
    = true ->
  main_form w model =
  (inr tt,
   form_shown
   ++ [St Page spinner (Str "🤖 AIが料理を考えています...");
       GenerateContent (model_name model)
         (prompt_text (Some (ingredient1 w)) (Some (ingredient2 w))
            (Some (ingredient3 w)) (cuisine_type w))]
   ++ failure_shown
        (generate_content w model
           (prompt_text (Some (ingredient1 w)) (Some (ingredient2 w))
              (Some (ingredient3 w)) (cuisine_type w)))
   ++ answer_shown
        (answer_of
           (generate_content w model
              (prompt_text (Some (ingredient1 w)) (Some (ingredient2 w))
                 (Some (ingredient3 w)) (cuisine_type w))))
        (copy_clicked w)
   ++ events usage_panel).
Proof.
  intros Hc Hany. unfold main_form. rewrite Hc, Hany. cbn [negb].
  rewrite generate_run, !bind_emit, bind_value. cbn [fst snd].
  set (outcome := generate_content w model _).
  destruct outcome as [e | answer].
  - unfold failure_shown. destruct (looks_like_timeout e); reflexivity.
  - cbn [answer_of failure_shown answer_shown].
    destruct (Py.truthy answer); [| reflexivity].
    unfold suggestion_shown. destruct (copy_clicked w); reflexivity.
Qed.

Lemma main_form_idle (w : World) (model : GenerativeModel) :
  suggest_clicked w = false ->
  main_form w model = (inr tt, form_shown ++ events usage_panel).
Proof. intros Hc. unfold main_form. rewrite Hc. reflexivity. Qed.

Lemma main_form_returns (w : World) (model : GenerativeModel) :
  result (main_form w model) = inr tt.
Proof.
  destruct (suggest_clicked w) eqn:Hc.
  - destruct (Py.any [Some (ingredient1 w); Some (ingredient2 w);
                      Some (ingredient3 w)]) eqn:Hany.
    + rewrite (main_form_submitted w model Hc Hany). reflexivity.
    + unfold main_form. rewrite Hc, Hany. reflexivity.
  - rewrite (main_form_idle w model Hc). reflexivity.
Qed.

Lemma get_api_key_run (w : World) :
  exists es,
    Forall in_sidebar es /\
    get_api_key w =
    (inr (if has_secret w || Py.truthy (key_of w)
          then Some (key_of w) else None), es).
Proof.
  unfold get_api_key, has_secret, key_of.
  destruct (secrets w) as [[key|]|];
    [| destruct (sidebar_api_key w) ..];
    eexists; (split; [| reflexivity]);
    repeat constructor; eexists _, _; reflexivity.
Qed.

Lemma has_capable_ids (catalog : list Model) :
  existsb capable catalog = false <-> capable_ids catalog = [].
Proof.
  rewrite <- capable_ids_none. split.
  - intros H d Hd. destruct (capable d) eqn:Hc; [| reflexivity].
    assert (existsb capable catalog = true)
      by (apply existsb_exists; exists d; auto).
    congruence.
  - intros H. destruct (existsb capable catalog) eqn:E; [| reflexivity].
    apply existsb_exists in E. destruct E as [d [Hd Hc]].
    rewrite (H d Hd) in Hc. discriminate.
Qed.

Lemma formless_sidebar (es : list Event) : Forall in_sidebar es -> formless es.
Proof. apply Forall_impl. intros e [c [x ->]] H. exact H. Qed.

Lemma formless_verdict (priorities sup : list string) :
  formless (verdict priorities sup).
Proof.
  unfold verdict.
  destruct (choose priorities sup);
    [destruct (Py.truthy_opt (scan_priorities priorities sup)) |];
    repeat constructor; intros H; exact H.
Qed.

Lemma initialize_gemini_run (priorities : list string) (k : string)
    (list_models : string + list Model) :
  exists r es,
    initialize_gemini_with priorities k list_models = (inr r, es) /\
    formless es /\
    (r = None <-> has_capable list_models = false).
Proof.
  destruct list_models as [e | catalog].
  - rewrite initialize_gemini_fetch_failed. eexists _, _.
    split; [reflexivity |]. split; [| split; reflexivity].
    repeat constructor; intros H; exact H.
  - destruct (initialize_gemini_catalog priorities k catalog)
      as [shown [Hside Hrun]].
    rewrite Hrun. eexists _, _. split; [reflexivity |]. split.
    + apply Forall_app. split;
        [apply formless_sidebar, Hside | apply formless_verdict].
    + cbn [has_capable]. rewrite has_capable_ids, <- (choose_none priorities).
      destruct (choose priorities (capable_ids catalog)); cbn [option_map];
        split; intros H; try reflexivity; discriminate H.
Qed.

Lemma main_without_key (w : World) :
  Py.truthy (key_of w) = false ->
  main w =
  (inl StopException,
   page_head ++ events (get_api_key w)
   ++ [St Page warning (Str "⚠️ APIキーを設定してください")]).
Proof.
  intros Hkey. unfold main. rewrite !bind_emit.
  destruct (get_api_key_run w) as [es [_ Hrun]]. rewrite Hrun, bind_value.
  unfold events. cbn [fst snd]. rewrite Hkey, orb_false_r.
  destruct (has_secret w); [rewrite Hkey |]; reflexivity.
Qed.

Lemma main_with_key (w : World) :
  Py.truthy (key_of w) = true ->
  main w =
  (match result (initialize_gemini (key_of w) (list_models w)) with
   | inr (Some model) => result (main_form w model)
   | _ => inl StopException
   end,
   page_head ++ events (get_api_key w)
   ++ events (initialize_gemini (key_of w) (list_models w))
   ++ match result (initialize_gemini (key_of w) (list_models w)) with
      | inr (Some model) => events (main_form w model)
      | _ => [St Page error (Str "❌ AIモデルの初期化に失敗しました")]
      end).
Proof.
  intros Hkey. unfold main. rewrite !bind_emit.
  destruct (get_api_key_run w) as [es [_ Hrun]]. rewrite Hrun, bind_value.
  unfold events, result. cbn [fst snd]. rewrite Hkey, orb_true_r.
  cbv iota beta. rewrite Hkey, bind_ret_l.
  destruct (initialize_gemini_run priority_models (key_of w) (list_models w))
    as [r [ei [Hinit _]]].
  unfold initialize_gemini. rewrite Hinit, bind_value. cbn [fst snd].
  destruct r as [model|]; reflexivity.
Qed.

Lemma main_form_starts_with_form (w : World) (model : GenerativeModel) :
  exists after, events (main_form w model) = form_shown ++ after.
Proof.
  destruct (suggest_clicked w) eqn:Hc.
  - destruct (Py.any [Some (ingredient1 w); Some (ingredient2 w);
                      Some (ingredient3 w)]) eqn:Hany.
    + rewrite (main_form_submitted w model Hc Hany). eexists. reflexivity.
    + unfold main_form. rewrite Hc, Hany. eexists. reflexivity.
  - rewrite (main_form_idle w model Hc). eexists. reflexivity.
Qed.

Lemma formless_page_head : formless page_head.
Proof. repeat constructor; intros H; exact H. Qed.

(** X13: [main] raises nothing but Streamlit's stop.  It runs to its end
    exactly when there is a key that is not empty, the catalog can be
    fetched and some model of it supports "generateContent"; in every
    other case it stops the script.  No failure of the remote service
    leaves it as an exception. *)
Theorem main_outcome (w : World) :
  result (main w) =
  if Py.truthy (key_of w) && has_capable (list_models w)
  then inr tt else inl StopException.
Proof.
  destruct (Py.truthy (key_of w)) eqn:Hkey; cbn [andb].
  - rewrite (main_with_key w Hkey). unfold result at 1. cbn [fst].
    destruct (initialize_gemini_run priority_models (key_of w) (list_models w))
      as [r [ei [Hinit [_ Hnone]]]].
    unfold initialize_gemini, result at 1. rewrite Hinit. cbn [fst].
    destruct r as [model|].
    + rewrite main_form_returns.
      destruct (has_capable (list_models w)); [reflexivity |].
      destruct Hnone as [_ H]. discriminate (H eq_refl).
    + rewrite (proj1 Hnone eq_refl). reflexivity.
  - rewrite (main_without_key w Hkey). reflexivity.
Qed.

(** X14: without a key that is not empty, [main] stops on the warning
    that asks for one: the catalog is not fetched and nothing else is
    drawn.  An empty key in the secret store is such a case, and the
    sidebar then does not ask for a key either. *)
Theorem main_stops_without_key (w : World) :
  Py.truthy (key_of w) = false ->
  result (main w) = inl StopException /\
  events (main w) =
    page_head ++ events (get_api_key w)
    ++ [St Page warning (Str "⚠️ APIキーを設定してください")] /\
  (has_secret w = true ->
   events (main w) =
     page_head ++ [St Page warning (Str "⚠️ APIキーを設定してください")]).
Proof.
  intros Hkey. rewrite (main_without_key w Hkey).
  split; [reflexivity |]. split; [reflexivity |].
  intros Hsecret. unfold events at 1. cbn [snd].
  unfold get_api_key, has_secret in *.
  destruct (secrets w) as [[key|]|]; try discriminate Hsecret. reflexivity.
Qed.

Lemma main_stops_without_key_witness :
  events
    (main {| secrets := Some (Some EmptyString);
             sidebar_api_key := "AIzaSyA-0123456789";
             list_models := inr [];
             generate_content := fun _ _ => inr "肉じゃが";
             ingredient1 := "鶏肉";
             ingredient2 := EmptyString;
             ingredient3 := EmptyString;
             cuisine_type := "和食";
             suggest_clicked := true;
             copy_clicked := false |}) =
  page_head ++ [St Page warning (Str "⚠️ APIキーを設定してください")].
Proof.
  refine (proj2 (proj2 (main_stops_without_key _ _)) _); reflexivity.
Defined.

(** X15: the form is drawn in the runs of [main] that reach their end,
    and in no other: a run that stops has drawn no text field, select box
    or button on the page. *)
Theorem form_drawn_unless_stopped (w : World) :
  (result (main w) = inl StopException -> formless (events (main w))) /\
  (result (main w) = inr tt ->
   exists before after,
     events (main w) = before ++ form_shown ++ after /\ formless before).
Proof.
  destruct (get_api_key_run w) as [ek [Hside Hk]].
  assert (Hget : formless (events (get_api_key w))).
  { rewrite Hk. apply formless_sidebar, Hside. }
  destruct (Py.truthy (key_of w)) eqn:Hkey.
  - rewrite (main_with_key w Hkey). unfold result at 1 3, events at 1 5.
    cbn [fst snd].
    destruct (initialize_gemini_run priority_models (key_of w) (list_models w))
      as [r [ei [Hinit [Hformless _]]]].
    unfold initialize_gemini, result, events. rewrite Hinit. cbn [fst snd].
    fold (events (get_api_key w)).
    destruct r as [model|].
    + fold (result (main_form w model)). rewrite main_form_returns.
      split; [discriminate |]. intros _.
      destruct (main_form_starts_with_form w model) as [after Hafter].
      unfold events in Hafter. rewrite Hafter.
      exists (page_head ++ events (get_api_key w) ++ ei), after.
      split; [rewrite <- !app_assoc; reflexivity |].
      repeat (apply Forall_app; split); try assumption; try apply formless_page_head.
    + split; [| discriminate]. intros _.
      repeat (apply Forall_app; split); try assumption; try apply formless_page_head.
      repeat constructor; intros H; exact H.
  - rewrite (main_without_key w Hkey). unfold result, events. cbn [fst snd].
    split; [| discriminate]. intros _.
    fold (events (get_api_key w)).
    repeat (apply Forall_app; split); try assumption; try apply formless_page_head.
    repeat constructor; intros H; exact H.
Qed.

Lemma form_drawn_unless_stopped_witness :
  formless
    (events
       (main {| secrets := None;
                sidebar_api_key := "AIzaSyA-0123456789";
                list_models := inl "403 API key not valid";
                generate_content := fun _ _ => inr "肉じゃが";
                ingredient1 := "鶏肉";
                ingredient2 := EmptyString;
                ingredient3 := EmptyString;
                cuisine_type := "和食";
                suggest_clicked := true;
                copy_clicked := false |})).
Proof.
  refine (proj1 (form_drawn_unless_stopped _) _). reflexivity.
Defined.



(** X17: the usage panel closes every run of the form but one: when the
    button is clicked with three empty ingredients, [main] returns on the
    warning and the panel is not drawn. *)
Theorem usage_panel_unless_empty_form (w : World) (model : GenerativeModel) :
  (suggest_clicked w = false \/
   Py.any [Some (ingredient1 w); Some (ingredient2 w); Some (ingredient3 w)]
     = true ->
   exists shown,
     events (main_form w model) = shown ++ events usage_panel) /\
  (suggest_clicked w = true ->
   Py.any [Some (ingredient1 w); Some (ingredient2 w); Some (ingredient3 w)]
     = false ->
   forall x, ~ In (St Page expander x) (events (main_form w model))).
Proof.
  split.
  - destruct (suggest_clicked w) eqn:Hc; intros [H | Hany];
      try discriminate H.
    + rewrite (main_form_submitted w model Hc Hany).
      unfold events at 1. cbn [snd]. eexists.
      rewrite !app_assoc. reflexivity.
    + rewrite (main_form_idle w model Hc). eexists. reflexivity.
    + rewrite (main_form_idle w model Hc). eexists. reflexivity.
  - intros Hc Hany x. unfold main_form. rewrite Hc, Hany.
    cbn. intros H.
    repeat (destruct H as [H | H]; [discriminate H |]). destruct H.
Qed.

Lemma usage_panel_unless_empty_form_witness :
  ~ In (St Page expander (Str "📖 使い方"))
       (events
          (main_form
             {| secrets := Some (Some "AIzaSyA-0123456789");
                sidebar_api_key := EmptyString;
                list_models := inr [];
                generate_content := fun _ _ => inr "肉じゃが";
                ingredient1 := EmptyString;
                ingredient2 := EmptyString;
                ingredient3 := EmptyString;
                cuisine_type := "和食";
                suggest_clicked := true;
                copy_clicked := false |}
             {| model_name := "gemini-2.5-flash" |})).
Proof.
  refine (proj2 (usage_panel_unless_empty_form _ _) _ _ _); reflexivity.
Defined.

Lemma quiet_failure_shown (outcome : string + string) :
  quiet (failure_shown outcome).
Proof.
  destruct outcome as [e | answer]; [| constructor].
  unfold failure_shown. destruct (looks_like_timeout e);
    repeat constructor; intros H; exact H.
Qed.

Lemma quiet_answer_shown (answer : option string) (copy : bool) :
  quiet (answer_shown answer copy).
Proof.
  destruct answer as [shown|]; [| constructor]. unfold answer_shown.
  destruct (Py.truthy shown); [| constructor]. unfold suggestion_shown.
  destruct copy; repeat constructor; intros H; exact H.
Qed.

(** X18: a run of [main] with a key, a model and a click with an
    ingredient given calls the remote generation exactly once, with the
    model that [initialize_gemini] returned and the prompt of the three
    fields and the cuisine of the form. *)
Theorem main_calls_selected_model (w : World) (model : GenerativeModel) :
  Py.truthy (key_of w) = true ->
  result (initialize_gemini (key_of w) (list_models w)) = inr (Some model) ->
  suggest_clicked w = true ->
  Py.any [Some (ingredient1 w); Some (ingredient2 w); Some (ingredient3 w)]
    = true ->
  exists before after,
    events (main w) =
    before
    ++ GenerateContent (model_name model)
         (prompt_text (Some (ingredient1 w)) (Some (ingredient2 w))
            (Some (ingredient3 w)) (cuisine_type w))
    :: after /\
    quiet before /\ quiet after.
Proof.
  intros Hkey Hinit Hc Hany. rewrite (main_with_key w Hkey), Hinit.
  rewrite (main_form_submitted w model Hc Hany).
  unfold events at 1 4. cbn [snd].
  exists (page_head ++ events (get_api_key w)
          ++ events (initialize_gemini (key_of w) (list_models w))
          ++ form_shown
          ++ [St Page spinner (Str "🤖 AIが料理を考えています...")]).
  eexists. split; [| split].
  - rewrite <- !app_assoc. cbn [app]. reflexivity.
  - repeat (apply Forall_app; split);
      first [ apply quiet_get_api_key | apply quiet_initialize_gemini
            | repeat constructor; intros H; exact H ].
  - repeat (apply Forall_app; split);
      first [ apply quiet_failure_shown | apply quiet_answer_shown
            | repeat constructor; intros H; exact H ].
Qed.

Lemma main_calls_selected_model_witness :
  exists before after,
    events
      (main {| secrets := None;
               sidebar_api_key := "AIzaSyA-0123456789";
               list_models :=
                 inr [ {| name := "models/gemini-2.0-flash";
                          supported_generation_methods :=
                            Some ["generateContent"] |} ];
               generate_content := fun _ _ => inl "429 quota exceeded";
               ingredient1 := "鶏肉";
               ingredient2 := " ";
               ingredient3 := EmptyString;
               cuisine_type := "中華";
               suggest_clicked := true;
               copy_clicked := false |}) =
    before
    ++ GenerateContent "gemini-2.0-flash"
         (prompt_text (Some "鶏肉") (Some " ") (Some EmptyString) "中華")
    :: after /\
    quiet before /\ quiet after.
Proof.
  refine (main_calls_selected_model _ {| model_name := "gemini-2.0-flash" |}
            _ _ _ _); reflexivity.
Defined.

(** X19: when the catalog cannot be fetched, [initialize_gemini] catches
    the exception: after the key's preview the page shows the failure
    with the message of the exception, the sidebar shows the message
    again, and [main] stops on its own error without drawing the form. *)
Theorem fetch_failure_stops_main (w : World) (e : string) :
  Py.truthy (key_of w) = true ->
  list_models w = inl e ->
  result (main w) = inl StopException /\
  events (main w) =
  page_head ++ events (get_api_key w)
  ++ [St Sidebar write (Str (key_preview (key_of w)));
      InitFailed e;
      St Sidebar error (Str ("エラー詳細: " ++ e));
      St Page error (Str "❌ AIモデルの初期化に失敗しました")].
Proof.
  intros Hkey Hfetch. rewrite (main_with_key w Hkey), Hfetch.
  unfold initialize_gemini. rewrite initialize_gemini_fetch_failed.
  split; reflexivity.
Qed.

Lemma fetch_failure_stops_main_witness :
  result
    (main {| secrets := Some (Some "AIzaSyA-0123456789");
             sidebar_api_key := EmptyString;
             list_models := inl "403 API key not valid";
             generate_content := fun _ _ => inr "肉じゃが";
             ingredient1 := "鶏肉";
             ingredient2 := EmptyString;
             ingredient3 := EmptyString;
             cuisine_type := "和食";
             suggest_clicked := true;
             copy_clicked := false |}) = inl StopException.
Proof.
  refine (proj1 (fetch_failure_stops_main _ "403 API key not valid" _ _));
    reflexivity.
Defined.
